(** * scodata.funcdata: functional data handles and their manager

    A shallow embedding of [src/scodata/funcdata.py].  Python strings are
    [string]s, dictionaries are [gmap]s, the file system and the document
    collection are explicit state, and every operation that can raise
    returns a [result]. *)

From Stdlib Require Import ZArith Lia Ascii String List Bool.
From stdpp Require Import base option list strings gmap fin_maps pretty.

Local Open Scope string_scope.
Local Open Scope Z_scope.

(** ** Python string primitives *)

Module PyStr.

(** [s.startswith(p)] *)
Fixpoint startswith (s p : string) {struct p} : bool :=
  match p, s with
  | EmptyString, _ => true
  | String a p', String b s' => if Ascii.eqb a b then startswith s' p' else false
  | String _ _, EmptyString => false
  end.

(** [s[n:]] for [0 <= n] *)
Fixpoint drop (n : nat) (s : string) : string :=
  match n, s with
  | O, _ => s
  | S n', String _ s' => drop n' s'
  | S _, EmptyString => EmptyString
  end.

(** [s.endswith(p)]: the last [len(p)] characters of [s] are [p]. *)
Definition endswith (s p : string) : bool :=
  (String.length p <=? String.length s)%nat
  && String.eqb (drop (String.length s - String.length p) s) p.

(** [s.rfind(c)] for a one-character needle: the highest index holding
    [c], or [-1]. *)
Fixpoint rfind (c : ascii) (s : string) : Z :=
  match s with
  | EmptyString => -1
  | String a s' =>
      let k := rfind c s' in
      if 0 <=? k then k + 1 else if Ascii.eqb a c then 0 else -1
  end.

(** [s.split(c)] for a one-character separator; never the empty list. *)
Fixpoint split (c : ascii) (s : string) : list string :=
  match s with
  | EmptyString => [EmptyString]
  | String a s' =>
      if Ascii.eqb a c then EmptyString :: split c s'
      else match split c s' with
           | h :: t => String a h :: t
           | [] => [String a EmptyString]
           end
  end.

(** [sep.join(l)] *)
Fixpoint join (sep : string) (l : list string) : string :=
  match l with
  | [] => EmptyString
  | [x] => x
  | x :: rest => x +:+ sep +:+ join sep rest
  end.

(** [c * n] *)
Fixpoint repeat_char (c : ascii) (n : nat) : string :=
  match n with
  | O => EmptyString
  | S n' => String c (repeat_char c n')
  end.

(** [s.replace(c, '')] for a one-character [c]. *)
Fixpoint remove_char (c : ascii) (s : string) : string :=
  match s with
  | EmptyString => EmptyString
  | String a s' => if Ascii.eqb a c then remove_char c s' else String a (remove_char c s')
  end.

(** [c in s] *)
Fixpoint contains (c : ascii) (s : string) : bool :=
  match s with
  | EmptyString => false
  | String a s' => Ascii.eqb a c || contains c s'
  end.

End PyStr.

(** ** [os.path] on POSIX *)

Module PosixPath.

Definition sep : ascii := "/"%char.

(** [os.path.join(a, b)]: one round of the loop over the later
    arguments. *)
Definition join (a b : string) : string :=
  if PyStr.startswith b "/" then b
  else if String.eqb a "" || PyStr.endswith a "/" then a +:+ b
  else a +:+ "/" +:+ b.

(** [os.path.join(a, *p)] *)
Definition join_all (a : string) (p : list string) : string := fold_left join p a.

(** [os.path.basename(p)]: [p[p.rfind('/') + 1:]] *)
Definition basename (p : string) : string :=
  let i := PyStr.rfind sep p + 1 in
  PyStr.drop (Z.to_nat i) p.

Definition is_nil {A} (l : list A) : bool :=
  match l with [] => true | _ => false end.

(** The body of the [for comp in comps] loop of [normpath]; [abs] is the
    truth value of [initial_slashes]. *)
Definition normpath_step (abs : bool) (new_comps : list string) (comp : string)
  : list string :=
  if String.eqb comp "" || String.eqb comp "." then new_comps
  else if negb (String.eqb comp "..")
          || (negb abs && is_nil new_comps)
          || (negb (is_nil new_comps) && String.eqb (List.last new_comps "") "..")
       then (new_comps ++ [comp])%list
       else if negb (is_nil new_comps) then removelast new_comps
       else new_comps.

(** [initial_slashes]: 0, 1 or 2. *)
Definition initial_slashes (path : string) : nat :=
  if PyStr.startswith path "/" then
    if PyStr.startswith path "//" && negb (PyStr.startswith path "///") then 2%nat
    else 1%nat
  else 0%nat.

Definition normpath_comps (path : string) : list string :=
  fold_left (normpath_step (negb (Nat.eqb (initial_slashes path) 0)))
            (PyStr.split sep path) [].

(** [os.path.normpath(path)] *)
Definition normpath (path : string) : string :=
  if String.eqb path "" then "."
  else
    let n := initial_slashes path in
    let joined := PyStr.join "/" (normpath_comps path) in
    let path' := if Nat.eqb n 0 then joined else PyStr.repeat_char sep n +:+ joined in
    if String.eqb path' "" then "." else path'.

(** [p] is empty or ends in a separator: what may stand in front of the
    last component of a path. *)
Definition dir_prefix (p : string) : Prop := p = "" \/ exists q, p = q +:+ "/".


(** A file name: a component that is not empty, [.] or [..] and holds no
    separator. *)
Definition is_name (n : string) : bool :=
  negb (String.eqb n "") && negb (String.eqb n ".") && negb (String.eqb n "..")
  && negb (PyStr.contains sep n).

End PosixPath.

(** ** Values stored in property dictionaries and documents *)

Inductive pyval : Type :=
  | VNone
  | VBool (b : bool)
  | VInt (n : Z)
  | VStr (s : string).

Global Instance pyval_eq_dec : EqDecision pyval.
Proof. solve_decision. Defined.

(** [str(v)] *)
Definition py_str (v : pyval) : string :=
  match v with
  | VNone => "None"
  | VBool true => "True"
  | VBool false => "False"
  | VInt n => pretty n
  | VStr s => s
  end.

(** ** Exceptions *)

Inductive errno : Type := EEXIST | ENOENT | ENOTDIR | EISDIR.

Inductive exn : Type :=
  | ValueError (msg : string)
  | KeyError (key : string)
  | BadOperand            (* TypeError / AttributeError: an operand of the wrong type *)
  | OSError (e : errno)
  | IOError (e : errno)
  | ShutilError           (* shutil.Error: source and destination are the same file *)
  | DuplicateKeyError (key : string).

Inductive result (A : Type) : Type :=
  | Ok (a : A)
  | Err (e : exn).
Arguments Ok {A} a.
Arguments Err {A} e.

Definition is_ok {A} (r : result A) : bool :=
  match r with Ok _ => true | Err _ => false end.

(** ** [datetime.datetime] values *)

Record datetime : Type := mkDatetime {
  dt_year : Z;
  dt_month : Z;
  dt_day : Z;
  dt_hour : Z;
  dt_minute : Z;
  dt_second : Z;
  dt_microsecond : Z
}.

Module DateTime.

Definition is_leap (y : Z) : bool :=
  (y mod 4 =? 0) && (negb (y mod 100 =? 0) || (y mod 400 =? 0)).

Definition days_in_month (y m : Z) : Z :=
  if m =? 2 then (if is_leap y then 29 else 28)
  else if (m =? 4) || (m =? 6) || (m =? 9) || (m =? 11) then 30
  else 31.

(** The range checks of the [datetime] constructor. *)
Definition valid (d : datetime) : bool :=
  (1 <=? dt_year d) && (dt_year d <=? 9999)
  && (1 <=? dt_month d) && (dt_month d <=? 12)
  && (1 <=? dt_day d) && (dt_day d <=? days_in_month (dt_year d) (dt_month d))
  && (0 <=? dt_hour d) && (dt_hour d <=? 23)
  && (0 <=? dt_minute d) && (dt_minute d <=? 59)
  && (0 <=? dt_second d) && (dt_second d <=? 59)
  && (0 <=? dt_microsecond d) && (dt_microsecond d <=? 999999).

Definition digit_char (d : Z) : ascii := ascii_of_nat (48 + Z.to_nat d).

Definition digit_of (c : ascii) : option Z :=
  let n := Z.of_nat (nat_of_ascii c) in
  if (48 <=? n) && (n <=? 57) then Some (n - 48) else None.

(** [w] decimal digits of [n], most significant first, in front of [acc]. *)
Fixpoint zpad (w : nat) (n : Z) (acc : string) : string :=
  match w with
  | O => acc
  | S w' => zpad w' (n / 10) (String (digit_char (n mod 10)) acc)
  end.

(** *** Matching the pattern of ['%Y-%m-%dT%H:%M:%S.%f']

    [strptime] compiles the format into a regular expression, one group
    per directive, and matches it with backtracking.  A matcher takes the
    remaining input and a success continuation; an alternative falls
    through to the next one when the continuation fails. *)

Section Matchers.
Context {R : Type}.

Definition matcher : Type := string -> (Z -> string -> option R) -> option R.

(** One digit in [[lo-hi]]. *)
Definition cls (lo hi : Z) : matcher := fun s k =>
  match s with
  | String c r =>
      match digit_of c with
      | Some d => if (lo <=? d) && (d <=? hi) then k d r else None
      | None => None
      end
  | EmptyString => None
  end.

(** Two sub-patterns in sequence; the group's text read as a number. *)
Definition seq2 (p q : matcher) : matcher := fun s k =>
  p s (fun a r => q r (fun b r' => k (10 * a + b) r')).

Definition alt (p q : matcher) : matcher := fun s k =>
  match p s k with
  | Some x => Some x
  | None => q s k
  end.

(** A literal blank in front of a digit ([int] skips it). *)
Definition blank (p : matcher) : matcher := fun s k =>
  match s with
  | String c r => if Ascii.eqb c " " then p r k else None
  | EmptyString => None
  end.

(** A literal character of the format; the expression is compiled with
    [re.IGNORECASE]. *)
Definition lit (lower upper : ascii) (s : string) (k : string -> option R) : option R :=
  match s with
  | String c r => if Ascii.eqb c lower || Ascii.eqb c upper then k r else None
  | EmptyString => None
  end.

Definition digit : matcher := cls 0 9.

(** ['%Y']: [\d\d\d\d] *)
Definition re_Y : matcher := seq2 (seq2 (seq2 digit digit) digit) digit.
(** ['%m']: [1[0-2]|0[1-9]|[1-9]] *)
Definition re_m : matcher :=
  alt (seq2 (cls 1 1) (cls 0 2)) (alt (seq2 (cls 0 0) (cls 1 9)) (cls 1 9)).
(** ['%d']: [3[0-1]|[1-2]\d|0[1-9]|[1-9]| [1-9]] *)
Definition re_d : matcher :=
  alt (seq2 (cls 3 3) (cls 0 1))
      (alt (seq2 (cls 1 2) digit)
           (alt (seq2 (cls 0 0) (cls 1 9)) (alt (cls 1 9) (blank (cls 1 9))))).
(** ['%H']: [2[0-3]|[0-1]\d|\d] *)
Definition re_H : matcher :=
  alt (seq2 (cls 2 2) (cls 0 3)) (alt (seq2 (cls 0 1) digit) digit).
(** ['%M']: [[0-5]\d|\d] *)
Definition re_M : matcher := alt (seq2 (cls 0 5) digit) digit.
(** ['%S']: [6[0-1]|[0-5]\d|\d] *)
Definition re_S : matcher :=
  alt (seq2 (cls 6 6) (cls 0 1)) (alt (seq2 (cls 0 5) digit) digit).

(** ['%f']: [[0-9]{1,6}], greedy.  [n] more digits may be taken, [len]
    were taken and read as [acc]; the continuation gets the digits padded
    with zeros on the right to six places. *)
Fixpoint re_f_from (n : nat) (len : nat) (acc : Z) : matcher := fun s k =>
  let stop := if (1 <=? len)%nat then k (acc * 10 ^ Z.of_nat (6 - len)) s else None in
  match n with
  | O => stop
  | S n' =>
      match s with
      | String c r =>
          match digit_of c with
          | Some d =>
              match re_f_from n' (S len) (10 * acc + d) r k with
              | Some x => Some x
              | None => stop
              end
          | None => stop
          end
      | EmptyString => stop
      end
  end.

Definition re_f : matcher := re_f_from 6 0 0.

End Matchers.

(** The groups of a match and the input left after it. *)
Definition strptime_match (s : string) : option (datetime * string) :=
  re_Y s (fun Y r => lit "-" "-" r (fun r =>
  re_m r (fun m r => lit "-" "-" r (fun r =>
  re_d r (fun d r => lit "t" "T" r (fun r =>
  re_H r (fun H r => lit ":" ":" r (fun r =>
  re_M r (fun M r => lit ":" ":" r (fun r =>
  re_S r (fun S r => lit "." "." r (fun r =>
  re_f r (fun f r => Some (mkDatetime Y m d H M S f, r)))))))))))))).

(** [datetime.datetime.strptime(s, '%Y-%m-%dT%H:%M:%S.%f')]; [None] stands
    for its [ValueError] (no match, unconverted data after the match, or a
    field out of range). *)
Definition strptime (s : string) : option datetime :=
  match strptime_match s with
  | Some (d, rest) =>
      if String.eqb rest "" && valid d then Some d else None
  | None => None
  end.

(** Modelled from the spec: the timestamp string of a stored document,
    written by the object store of [datastore] (not part of [src/]); the
    spec gives its format as [YYYY-MM-DDTHH:MM:SS.ffffff]. *)
Definition isoformat (d : datetime) : string :=
  zpad 4 (dt_year d) (String "-" (zpad 2 (dt_month d) (String "-" (zpad 2 (dt_day d)
    (String "T" (zpad 2 (dt_hour d) (String ":" (zpad 2 (dt_minute d)
      (String ":" (zpad 2 (dt_second d) (String "." (zpad 6 (dt_microsecond d) "")))))))))))).

End DateTime.

(** ** [uuid.uuid4] *)

Module UUID.

Definition hex_char (d : Z) : ascii :=
  if d <? 10 then ascii_of_nat (48 + Z.to_nat d) else ascii_of_nat (87 + Z.to_nat d).

(** [w] lower-case hexadecimal digits of [n], most significant first, in
    front of [acc]. *)
Fixpoint hex_pad (w : nat) (n : Z) (acc : string) : string :=
  match w with
  | O => acc
  | S w' => hex_pad w' (n / 16) (String (hex_char (n mod 16)) acc)
  end.

(** [UUID(bytes=b, version=4).int], [r] being the 16 random bytes [b] read
    as an integer: the variant is set to RFC 4122 and the version to 4. *)
Definition uuid4_int (r : Z) : Z :=
  let i := r mod 2 ^ 128 in
  let i := Z.land i (Z.lnot (Z.shiftl 0xc000 48)) in
  let i := Z.lor i (Z.shiftl 0x8000 48) in
  let i := Z.land i (Z.lnot (Z.shiftl 0xf000 64)) in
  Z.lor i (Z.shiftl 4 76).

(** ['%032x' % int] *)
Definition hex32 (i : Z) : string := hex_pad 32 i "".

(** [str(u)]: the 32 digits in groups of 8-4-4-4-12. *)
Definition uuid_str (i : Z) : string :=
  let hex := hex32 i in
  substring 0 8 hex +:+ "-" +:+ substring 8 4 hex +:+ "-" +:+ substring 12 4 hex
    +:+ "-" +:+ substring 16 4 hex +:+ "-" +:+ PyStr.drop 20 hex.

(** The characters of an identifier. *)
Definition is_hex (c : ascii) : bool := PyStr.contains c "0123456789abcdef".

Fixpoint all_hex (s : string) : bool :=
  match s with
  | EmptyString => true
  | String c s' => is_hex c && all_hex s'
  end.

End UUID.

(** ** The file system

    A tree keyed by the list of path components from the root.  Paths are
    resolved lexically (no symbolic links) and relative paths start at the
    root of the modelled tree. *)

Inductive node : Type :=
  | Dir
  | File (content : string).

Module FS.

Definition resolve_step (acc : list string) (comp : string) : list string :=
  if String.eqb comp "" || String.eqb comp "." then acc
  else if String.eqb comp ".." then removelast acc
  else (acc ++ [comp])%list.

Definition key (path : string) : list string :=
  fold_left resolve_step (PyStr.split PosixPath.sep path) [].

Definition lookup (fs : gmap (list string) node) (k : list string) : option node :=
  match k with
  | [] => Some Dir
  | _ => fs !! k
  end.

(** A path that ends in a separator, in [.] or in [..] names a directory
    or nothing. *)
Definition needs_dir (path : string) : bool :=
  let l := List.last (PyStr.split PosixPath.sep path) "" in
  String.eqb l "" || String.eqb l "." || String.eqb l "..".

(** [os.stat(path)], as far as the model goes: the node the path names. *)
Definition stat (fs : gmap (list string) node) (path : string) : result node :=
  if String.eqb path "" then Err (OSError ENOENT)
  else match lookup fs (key path) with
       | Some Dir => Ok Dir
       | Some (File c) => if needs_dir path then Err (OSError ENOTDIR) else Ok (File c)
       | None => Err (OSError ENOENT)
       end.

Definition is_dir (fs : gmap (list string) node) (path : string) : bool :=
  match stat fs path with Ok Dir => true | _ => false end.

(** [os.access(path, os.F_OK)] *)
Definition access (fs : gmap (list string) node) (path : string) : bool :=
  is_ok (stat fs path).

Definition mkdir_key (fs : gmap (list string) node) (k : list string)
  : result (gmap (list string) node) :=
  match lookup fs k with
  | Some _ => Err (OSError EEXIST)
  | None =>
      match lookup fs (removelast k) with
      | Some Dir => Ok (<[k := Dir]> fs)
      | Some (File _) => Err (OSError ENOTDIR)
      | None => Err (OSError ENOENT)
      end
  end.

(** [os.mkdir(path)] *)
Definition mkdir (fs : gmap (list string) node) (path : string)
  : result (gmap (list string) node) :=
  if String.eqb path "" then Err (OSError ENOENT) else mkdir_key fs (key path).

(** The recursion of [os.makedirs]: the ancestors that are missing are
    made from the top, an ancestor that is there is left alone, and the
    leaf is made by [mkdir]. *)
Fixpoint makedirs_from (fs : gmap (list string) node) (done rest : list string)
  : result (gmap (list string) node) :=
  match rest with
  | [] => Ok fs
  | [c] => mkdir_key fs (done ++ [c])%list
  | c :: rest' =>
      let p := (done ++ [c])%list in
      match (match lookup fs p with Some _ => Ok fs | None => mkdir_key fs p end) with
      | Ok fs' => makedirs_from fs' p rest'
      | Err e => Err e
      end
  end.

(** [os.makedirs(path)] *)
Definition makedirs (fs : gmap (list string) node) (path : string)
  : result (gmap (list string) node) :=
  if String.eqb path "" then Err (OSError ENOENT)
  else match key path with
       | [] => Err (OSError EEXIST)
       | k => makedirs_from fs [] k
       end.

(** [shutil.copyfile(src, dst)] *)
Definition copyfile (fs : gmap (list string) node) (src dst : string)
  : result (gmap (list string) node) :=
  let kd := key dst in
  if bool_decide (key src = kd) && access fs src && access fs dst then Err ShutilError
  else
    match stat fs src with
    | Ok (File c) =>
        if String.eqb dst "" then Err (IOError ENOENT)
        else if needs_dir dst then Err (IOError EISDIR)
        else
          match lookup fs kd with
          | Some Dir => Err (IOError EISDIR)
          | _ =>
              match lookup fs (removelast kd) with
              | Some Dir => Ok (<[kd := File c]> fs)
              | Some (File _) => Err (IOError ENOTDIR)
              | None => Err (IOError ENOENT)
              end
          end
    | Ok Dir => Err (IOError EISDIR)
    | Err (OSError e) => Err (IOError e)
    | Err e => Err e
    end.

(** [os.path.getsize(path)].  The size of a directory depends on the file
    system; the model reports 0 for it. *)
Definition getsize (fs : gmap (list string) node) (path : string) : result Z :=
  match stat fs path with
  | Ok (File c) => Ok (Z.of_nat (String.length c))
  | Ok Dir => Ok 0
  | Err e => Err e
  end.

(** The errors of the file-system operations are [OSError], [IOError] and
    [shutil.Error]. *)
Definition io_error (e : exn) : Prop :=
  match e with
  | OSError _ | IOError _ | ShutilError => True
  | _ => False
  end.


End FS.

(** ** Handles *)

(** Modelled from the spec: the attributes [datastore.DataObjectHandle]
    keeps for a handle (the class is not part of [src/]): identifier,
    creation timestamp, properties, directory and the active flag. *)
Record DataObjectHandle : Type := mkDataObjectHandle {
  identifier : string;
  timestamp : datetime;
  properties : gmap string pyval;
  directory : string;
  is_active : bool
}.

Record FunctionalDataHandle : Type := mkFunctionalDataHandle {
  fdh_base :> DataObjectHandle;
  data_directory : string;
  data_file : string
}.

Record FMRIDataHandle : Type := mkFMRIDataHandle {
  fmri_base :> FunctionalDataHandle;
  experiment_id : string
}.

(** A document of the collection; a field that is absent is [None]. *)
Record document : Type := mkDocument {
  doc_id : option pyval;
  doc_active : option bool;
  doc_timestamp : option pyval;
  doc_properties : option (gmap string pyval)
}.

(** ** The world the manager runs in *)

Record world : Type := mkWorld {
  w_fs : gmap (list string) node;
  w_collection : gmap string document;
  (** the [k]-th read of 16 random bytes, as an integer *)
  w_entropy : nat -> Z;
  w_reads : nat;
  (** the reading of the UTC clock *)
  w_utcnow : datetime
}.

Definition M (A : Type) : Type := world -> result A * world.

Definition ret {A} (a : A) : M A := fun w => (Ok a, w).
Definition raise {A} (e : exn) : M A := fun w => (Err e, w).
Definition bind {A B} (c : M A) (k : A -> M B) : M B := fun w =>
  match c w with
  | (Ok a, w') => k a w'
  | (Err e, w') => (Err e, w')
  end.

Notation "'do' x <- c ; k" := (bind c (fun x => k))
  (at level 10, x name, c at level 100, k at level 200).

(** Run a file-system operation that returns the new tree. *)
Definition fs_update (op : gmap (list string) node -> result (gmap (list string) node))
  : M unit := fun w =>
  match op (w_fs w) with
  | Ok fs' => (Ok tt, mkWorld fs' (w_collection w) (w_entropy w) (w_reads w) (w_utcnow w))
  | Err e => (Err e, w)
  end.

Definition fs_read {A} (op : gmap (list string) node -> A) : M A :=
  fun w => (Ok (op (w_fs w)), w).

(** Run a file-system query that may fail. *)
Definition fs_get {A} (op : gmap (list string) node -> result A) : M A :=
  fun w => (op (w_fs w), w).

Definition utcnow : M datetime := fun w => (Ok (w_utcnow w), w).

(** [str(uuid.uuid4())] *)
Definition uuid4_str : M string := fun w =>
  (Ok (UUID.uuid_str (UUID.uuid4_int (w_entropy w (w_reads w)))),
   mkWorld (w_fs w) (w_collection w) (w_entropy w) (S (w_reads w)) (w_utcnow w)).

(** ** Constants *)

Definition DATA_DIRECTORY : string := "data".
Definition UPLOAD_DIRECTORY : string := "upload".
Definition TYPE_FUNCDATA : string := "FUNCDATA".

(** The property keys are constants of [datastore], which is not part of
    [src/]; the development is parametric in them. *)
Class PropertyKeys : Type := {
  PROPERTY_NAME : string;
  PROPERTY_FILENAME : string;
  PROPERTY_FILESIZE : string;
  PROPERTY_MIMETYPE : string;
  PROPERTY_FUNCDATAFILE : string;
  PROPERTY_READONLY : string
}.

Record DefaultFunctionalDataManager : Type := mkManager {
  (** [self.directory]: the base directory of the object store *)
  base_directory : string
}.

(** ** Functional data handles *)

(** Modelled from the spec: [datastore.DataObjectHandle.__init__] (not
    part of [src/]) stores its arguments; a timestamp that is not given
    defaults to the current UTC time. *)
Definition DataObjectHandle_init (ident : string) (ts : option datetime)
    (props : gmap string pyval) (dir : string) (active : bool) : M DataObjectHandle :=
  do now <- utcnow;
  ret (mkDataObjectHandle ident (default now ts) props dir active).

(** [d[key]] *)
Definition getitem (d : gmap string pyval) (key : string) : M pyval :=
  match d !! key with
  | Some v => ret v
  | None => raise (KeyError key)
  end.

(** [os.path.join(a, b)] for a value [b] read from a dictionary. *)
Definition path_join (a : string) (b : pyval) : M string :=
  match b with
  | VStr s => ret (PosixPath.join a s)
  | _ => raise BadOperand
  end.

(** [FunctionalDataHandle.__init__] *)
Definition FunctionalDataHandle_init `{PropertyKeys} (ident : string)
    (props : gmap string pyval) (dir : string) (ts : option datetime) (active : bool)
  : M FunctionalDataHandle :=
  do base <- DataObjectHandle_init ident ts props dir active;
  let data_dir := PosixPath.join dir DATA_DIRECTORY in
  do name <- getitem (properties base) PROPERTY_FILENAME;
  do file <- path_join data_dir name;
  ret (mkFunctionalDataHandle base data_dir file).

(** [FunctionalDataHandle.type] *)
Definition handle_type (h : FunctionalDataHandle) : string := TYPE_FUNCDATA.

(** [FunctionalDataHandle.upload_file] *)
Definition upload_file (h : FunctionalDataHandle) : string := data_file h.

(** [FMRIDataHandle.__init__] *)
Definition FMRIDataHandle_init `{PropertyKeys} (func_data : FunctionalDataHandle)
    (experiment : string) : M FMRIDataHandle :=
  do base <- FunctionalDataHandle_init (identifier func_data) (properties func_data)
               (directory func_data) (Some (timestamp func_data)) (is_active func_data);
  ret (mkFMRIDataHandle base experiment).

(** ** The manager *)

(** Modelled from the spec: the document the object store of [datastore]
    (not part of [src/]) keeps for a handle: [_id] is the identifier
    string, [active] the flag, [timestamp] the creation time in the format
    [YYYY-MM-DDTHH:MM:SS.ffffff], [properties] the mapping; the directory
    is not stored. *)
Definition to_dict (h : DataObjectHandle) : document :=
  mkDocument (Some (VStr (identifier h))) (Some (is_active h))
             (Some (VStr (DateTime.isoformat (timestamp h)))) (Some (properties h)).

(** Modelled from the spec: [insert_object] of the object store of
    [datastore] (not part of [src/]) inserts the handle's document and
    fails if the identifier is already present. *)
Definition insert_object (h : DataObjectHandle) : M unit := fun w =>
  match w_collection w !! identifier h with
  | Some _ => (Err (DuplicateKeyError (identifier h)), w)
  | None =>
      (Ok tt, mkWorld (w_fs w) (<[identifier h := to_dict h]> (w_collection w))
                      (w_entropy w) (w_reads w) (w_utcnow w))
  end.

(** Lines 196-206 of [create_object]: the name of the file and the MIME
    type its suffix stands for. *)
Definition prop_name_of (filename : string) : string :=
  PosixPath.basename (PosixPath.normpath filename).

Definition mime_of_suffix (prop_name : string) : M string :=
  if PyStr.endswith prop_name ".nii.gz" || PyStr.endswith prop_name ".mgz"
     || PyStr.endswith prop_name ".mgh.gz"
  then ret "application/x-gzip"
  else if PyStr.endswith prop_name ".nii" then ret "application/NIfTI-1"
  else if PyStr.endswith prop_name ".mgh" then ret "application/MGH"
  else raise (ValueError ("unsupported file type: " +:+ prop_name)).

(** The dictionary literal of lines 220-226 and the update of line 228. *)
Definition initial_properties `{PropertyKeys} (prop_name : string) (size : Z)
    (prop_mime : string) (func_data_file : string) (read_only : bool)
  : gmap string pyval :=
  let props : gmap string pyval :=
    <[PROPERTY_FUNCDATAFILE := VStr func_data_file]>
      (<[PROPERTY_MIMETYPE := VStr prop_mime]>
        (<[PROPERTY_FILESIZE := VInt size]>
          (<[PROPERTY_FILENAME := VStr prop_name]>
            (<[PROPERTY_NAME := VStr prop_name]> ∅)))) in
  if read_only then <[PROPERTY_READONLY := VBool true]> props else props.

(** [DefaultFunctionalDataManager.create_object] *)
Definition create_object `{PropertyKeys} (self : DefaultFunctionalDataManager)
    (filename : string) (read_only : bool) : M FunctionalDataHandle :=
  let prop_name := prop_name_of filename in
  do prop_mime <- mime_of_suffix prop_name;
  do u <- uuid4_str;
  let ident := PyStr.remove_char "-" u in
  let object_dir := PosixPath.join (base_directory self) ident in
  do present <- fs_read (fun fs => FS.access fs object_dir);
  do _ <- (if negb present then fs_update (fun fs => FS.makedirs fs object_dir) else ret tt);
  let data_dir := PosixPath.join object_dir DATA_DIRECTORY in
  do _ <- fs_update (fun fs => FS.mkdir fs data_dir);
  let func_data_file := prop_name in
  let uploaded_file := PosixPath.join data_dir prop_name in
  do _ <- fs_update (fun fs => FS.copyfile fs filename uploaded_file);
  do size <- fs_get (fun fs => FS.getsize fs uploaded_file);
  let props := initial_properties prop_name size prop_mime func_data_file read_only in
  do obj <- FunctionalDataHandle_init ident props object_dir None true;
  do _ <- insert_object obj;
  ret obj.

(** [DefaultFunctionalDataManager.from_dict] *)
Definition from_dict `{PropertyKeys} (self : DefaultFunctionalDataManager)
    (doc : document) : M FunctionalDataHandle :=
  do id <- match doc_id doc with Some v => ret v | None => raise (KeyError "_id") end;
  let ident := py_str id in
  do active <- match doc_active doc with Some b => ret b | None => raise (KeyError "active") end;
  let dir := PosixPath.join (base_directory self) ident in
  do raw <- match doc_timestamp doc with Some v => ret v | None => raise (KeyError "timestamp") end;
  do ts <- match raw with
           | VStr s =>
               match DateTime.strptime s with
               | Some t => ret t
               | None => raise (ValueError ("time data does not match format: " +:+ s))
               end
           | _ => raise BadOperand
           end;
  do props <- match doc_properties doc with
              | Some p => ret p
              | None => raise (KeyError "properties")
              end;
  FunctionalDataHandle_init ident props dir (Some ts) active.

(** The identifier the next call of [create_object] draws. *)
Definition next_identifier (w : world) : string :=
  PyStr.remove_char "-" (UUID.uuid_str (UUID.uuid4_int (w_entropy w (w_reads w)))).

(** The six property keys are pairwise different. *)
Definition keys_distinct `{PropertyKeys} : Prop :=
  NoDup [PROPERTY_NAME; PROPERTY_FILENAME; PROPERTY_FILESIZE; PROPERTY_MIMETYPE;
         PROPERTY_FUNCDATAFILE; PROPERTY_READONLY].

(** The path invariant of a handle: [data_file] is
    [directory/data/<filename property>]. *)
Definition paths_derived `{PropertyKeys} (h : FunctionalDataHandle) : Prop :=
  data_directory h = PosixPath.join (directory h) "data"
  /\ exists name, properties h !! PROPERTY_FILENAME = Some (VStr name)
       /\ data_file h = PosixPath.join (PosixPath.join (directory h) "data") name
       /\ data_file h = PosixPath.join_all (directory h) ["data"; name].

(** [s] ends in [suffix]. *)
Definition has_suffix (s suffix : string) : Prop := exists stem, s = stem +:+ suffix.

(** None of the five accepted suffixes ends [n]. *)
Definition unsupported (n : string) : Prop :=
  ~ has_suffix n ".nii.gz" /\ ~ has_suffix n ".mgz" /\ ~ has_suffix n ".mgh.gz"
  /\ ~ has_suffix n ".nii" /\ ~ has_suffix n ".mgh".

(** [create_object] assigns [mime]: the suffix check yields it, and a
    handle the call returns carries it as its MIME type property. *)
Definition assigns_mime `{PropertyKeys} (self : DefaultFunctionalDataManager)
    (filename : string) (read_only : bool) (w : world) (mime : string) : Prop :=
  mime_of_suffix (prop_name_of filename) w = (Ok mime, w)
  /\ forall h w', create_object self filename read_only w = (Ok h, w') ->
                  properties h !! PROPERTY_MIMETYPE = Some (VStr mime).

(** A computation whose exceptions all satisfy [P]. *)
Definition raises_only {A} (P : exn -> Prop) (c : M A) : Prop :=
  forall w e w', c w = (Err e, w') -> P e.

Definition is_value_error (e : exn) : Prop :=
  match e with ValueError _ => True | _ => False end.

(** ** A concrete setting for sample runs *)

(** The property keys as the spec's document schema spells them. *)
Definition sample_keys : PropertyKeys :=
  Build_PropertyKeys "name" "filename" "filesize" "mimetype" "funcdatafile" "readonly".

Definition sample_manager : DefaultFunctionalDataManager := mkManager "/store".

Definition sample_id : string := "00000000000040008000000000000000".

Definition sample_fs : gmap (list string) node :=
  <[["in"; "scan.nii"] := File "0123456789"]>
    (<[["in"; "notes.txt"] := File "abc"]>
      (<[["in"] := Dir]> (<[["store"] := Dir]> ∅))).

Definition sample_world : world :=
  mkWorld sample_fs ∅ (fun _ => 0) 0 (mkDatetime 2017 3 9 14 5 59 1234).

(** A handle as the constructor builds it. *)
Definition sample_properties : gmap string pyval := {[ "filename" := VStr "x.nii" ]}.

Definition sample_handle : FunctionalDataHandle :=
  mkFunctionalDataHandle
    (mkDataObjectHandle "abc" (mkDatetime 2017 3 9 14 5 59 1234) sample_properties
                        "/store/abc" true)
    "/store/abc/data" "/store/abc/data/x.nii".

(** The same world after a collision: the object directory of the next
    identifier is there already, and empty. *)
Definition collided_world : world :=
  mkWorld (<[["store"; sample_id] := Dir]> sample_fs) ∅ (fun _ => 0) 0
          (mkDatetime 2017 3 9 14 5 59 1234).

(** A world whose random source gives a different value at every reading. *)
Definition busy_world : world :=
  mkWorld sample_fs ∅ (fun n => Z.of_nat n) 0 (mkDatetime 2017 3 9 14 5 59 1234).

(** The document of [sample_handle]. *)
Definition sample_document : document :=
  mkDocument (Some (VStr "abc")) (Some true) (Some (VStr "2017-03-09T14:05:59.001234"))
             (Some sample_properties).

(* ===================================================================== *)
(** * Properties *)

#[local] Arguments String.append !_ _ : simpl nomatch.

(** ** Sample runs of the path and time primitives *)

Example normpath_ex1 : PosixPath.normpath "/a/scan.nii/" = "/a/scan.nii".
Proof. reflexivity. Qed.
Example normpath_ex2 : PosixPath.normpath "a/./b/../c//" = "a/c".
Proof. reflexivity. Qed.
Example normpath_ex3 : PosixPath.normpath "//x/../.." = "//".
Proof. reflexivity. Qed.
Example normpath_ex4 : PosixPath.normpath "../a" = "../a".
Proof. reflexivity. Qed.
Example basename_ex1 : PosixPath.basename "/a/scan.nii" = "scan.nii".
Proof. reflexivity. Qed.
Example basename_ex2 : PosixPath.basename "/a/scan.nii/" = "".
Proof. reflexivity. Qed.
Example join_ex1 : PosixPath.join_all "/base" ["id"; "data"; "x.nii"] = "/base/id/data/x.nii".
Proof. reflexivity. Qed.
Example endswith_ex1 : PyStr.endswith "scan.nii.gz" ".nii.gz" = true.
Proof. reflexivity. Qed.
Example endswith_ex2 : PyStr.endswith "gz" ".nii.gz" = false.
Proof. reflexivity. Qed.
Example strptime_ex1 :
  DateTime.strptime "2020-01-01T00:00:00.000000" = Some (mkDatetime 2020 1 1 0 0 0 0).
Proof. reflexivity. Qed.
Example strptime_ex2 :
  DateTime.strptime "2020-1-9t7:5:3.5" = Some (mkDatetime 2020 1 9 7 5 3 500000).
Proof. reflexivity. Qed.
Example strptime_ex3 : DateTime.strptime "2021-02-29T00:00:00.000000" = None.
Proof. reflexivity. Qed.
Example strptime_ex4 : DateTime.strptime "2020-01-01T00:00:00" = None.
Proof. reflexivity. Qed.
Example strptime_ex5 : DateTime.strptime "2020-01-01T00:00:00.0000001" = None.
Proof. reflexivity. Qed.
Example strptime_ex6 : DateTime.strptime "2020-13-01T00:00:00.0" = None.
Proof. reflexivity. Qed.
Example isoformat_ex1 :
  DateTime.isoformat (mkDatetime 2017 3 9 14 5 59 1234) = "2017-03-09T14:05:59.001234".
Proof. reflexivity. Qed.



(** ** The monad *)

Lemma bind_ok {A B} (c : M A) (k : A -> M B) (w w' : world) (b : B) :
  bind c k w = (Ok b, w') <-> exists a w1, c w = (Ok a, w1) /\ k a w1 = (Ok b, w').
Proof.
  unfold bind. split.
  - destruct (c w) as [[a|e] w1]; [eauto | discriminate].
  - intros (a & w1 & -> & Hk). exact Hk.
Qed.

Lemma bind_err {A B} (c : M A) (k : A -> M B) (w w' : world) (e : exn) :
  c w = (Err e, w') -> bind c k w = (Err e, w').
Proof. unfold bind. now intros ->. Qed.

Lemma bind_ret {A B} (a : A) (k : A -> M B) (w : world) : bind (ret a) k w = k a w.
Proof. reflexivity. Qed.



Lemma insert_object_run (h : DataObjectHandle) w :
  w_collection w !! identifier h = None ->
  insert_object h w
  = (Ok tt, mkWorld (w_fs w) (<[identifier h := to_dict h]> (w_collection w))
                    (w_entropy w) (w_reads w) (w_utcnow w)).
Proof. unfold insert_object. now intros ->. Qed.

Lemma bind_err_inv {A B} (c : M A) (k : A -> M B) (w w' : world) (e : exn) :
  bind c k w = (Err e, w') ->
  c w = (Err e, w') \/ exists a w1, c w = (Ok a, w1) /\ k a w1 = (Err e, w').
Proof.
  unfold bind. destruct (c w) as [[a|e1] w1]; intros Hrun.
  - right. exists a, w1. split; [reflexivity | exact Hrun].
  - left. now injection Hrun as -> ->.
Qed.

(** Split a successful run of a sequence into its steps. *)
Ltac bind_inv H :=
  let a := fresh "a" in
  let w1 := fresh "w" in
  let H1 := fresh "Hstep" in
  apply bind_ok in H; destruct H as (a & w1 & H1 & H).

(** ** Strings *)

Module PyStrFacts.
Import PyStr.


Lemma app_assoc (a b c : string) : (a +:+ b) +:+ c = a +:+ b +:+ c.
Proof. induction a as [|x a IH]; cbn; [reflexivity | now rewrite IH]. Qed.

Lemma length_app (a b : string) :
  String.length (a +:+ b) = (String.length a + String.length b)%nat.
Proof. induction a as [|x a IH]; cbn; [reflexivity | now rewrite IH]. Qed.

Lemma drop_app (a b : string) : drop (String.length a) (a +:+ b) = b.
Proof. induction a as [|x a IH]; cbn; [now destruct b | exact IH]. Qed.

Lemma drop_0 (s : string) : drop 0 s = s.
Proof. now destruct s. Qed.

(** [s[:n] + s[n:] == s] *)
Lemma drop_split (n : nat) (s : string) : exists a, s = a +:+ drop n s.
Proof.
  revert s. induction n as [|n IH]; intros s.
  - exists "". now rewrite drop_0.
  - destruct s as [|x s]; [now exists "" |].
    destruct (IH s) as [a Ha]. exists (String x a). cbn. now rewrite <- Ha.
Qed.

(** [endswith] decides "is a suffix of". *)
Lemma endswith_spec (s p : string) : endswith s p = true <-> exists a, s = a +:+ p.
Proof.
  unfold endswith. rewrite andb_true_iff, Nat.leb_le, String.eqb_eq. split.
  - intros [_ Hp]. destruct (drop_split (String.length s - String.length p) s) as [a Ha].
    exists a. now rewrite Hp in Ha.
  - intros [a ->]. rewrite length_app. split; [lia |].
    replace (String.length a + String.length p - String.length p)%nat
      with (String.length a) by lia.
    apply drop_app.
Qed.

Lemma endswith_false (s p : string) : endswith s p = false <-> ~ exists a, s = a +:+ p.
Proof.
  rewrite <- endswith_spec. destruct (endswith s p); split; congruence.
Qed.

Lemma startswith_spec (s p : string) : startswith s p = true <-> exists b, s = p +:+ b.
Proof.
  revert s. induction p as [|x p IH]; intros s; cbn.
  - split; [intros _; now exists s | easy].
  - destruct s as [|y s].
    + split; [easy | intros [b Hb]; discriminate].
    + destruct (Ascii.eqb_spec x y) as [->|Hne].
      * rewrite IH. split; intros [b Hb]; exists b; [now rewrite Hb | now injection Hb].
      * split; [easy | intros [b Hb]; injection Hb; intros _ ?; congruence].
Qed.

Lemma contains_app (c : ascii) (a b : string) :
  contains c (a +:+ b) = contains c a || contains c b.
Proof. induction a as [|x a IH]; cbn; [reflexivity | now rewrite IH, orb_assoc]. Qed.

Lemma rfind_absent (c : ascii) (s : string) : contains c s = false -> rfind c s = -1.
Proof.
  induction s as [|x s IH]; cbn; [reflexivity |].
  rewrite orb_false_iff. intros [Hx Hs]. now rewrite (IH Hs), Hx.
Qed.

Lemma rfind_bounds (c : ascii) (s : string) : -1 <= rfind c s < Z.of_nat (String.length s).
Proof.
  induction s as [|x s IH]; cbn [rfind String.length]; [lia |].
  destruct (0 <=? rfind c s) eqn:Hk; [lia |].
  destruct (Ascii.eqb x c); lia.
Qed.

(** The last occurrence: behind it there is none. *)
Lemma rfind_last (c : ascii) (a b : string) :
  contains c b = false -> rfind c (a +:+ String c b) = Z.of_nat (String.length a).
Proof.
  intros Hb. induction a as [|x a IH]; cbn [String.append rfind String.length].
  - rewrite (rfind_absent _ _ Hb). cbn. now rewrite Ascii.eqb_refl.
  - rewrite IH. destruct (0 <=? Z.of_nat (String.length a)) eqn:Hk; lia.
Qed.

Lemma split_not_nil (c : ascii) (s : string) : split c s <> [].
Proof.
  induction s as [|x s IH]; cbn; [easy |].
  destruct (Ascii.eqb x c); [easy |]. now destruct (split c s).
Qed.

Lemma split_absent (c : ascii) (s : string) : contains c s = false -> split c s = [s].
Proof.
  induction s as [|x s IH]; cbn; [reflexivity |].
  rewrite orb_false_iff. intros [-> Hs]. now rewrite (IH Hs).
Qed.

(** Splitting at an occurrence of the separator. *)
Lemma split_app (c : ascii) (a b : string) :
  split c (a +:+ String c b) = (split c a ++ split c b)%list.
Proof.
  induction a as [|x a IH]; cbn [String.append split].
  - now rewrite Ascii.eqb_refl.
  - rewrite IH. destruct (Ascii.eqb x c); [reflexivity |].
    pose proof (split_not_nil c a) as Hne. now destruct (split c a).
Qed.


Lemma remove_char_app (c : ascii) (a b : string) :
  remove_char c (a +:+ b) = remove_char c a +:+ remove_char c b.
Proof.
  induction a as [|x a IH]; cbn; [reflexivity |].
  rewrite IH. now destruct (Ascii.eqb x c).
Qed.

Lemma remove_char_absent (c : ascii) (s : string) :
  contains c s = false -> remove_char c s = s.
Proof.
  induction s as [|x s IH]; cbn; [reflexivity |].
  rewrite orb_false_iff. intros [-> Hs]. now rewrite (IH Hs).
Qed.

Lemma app_inj_length (a b x y : string) :
  String.length a = String.length b -> a +:+ x = b +:+ y -> a = b /\ x = y.
Proof.
  revert b. induction a as [|c a IH]; intros [|d b] Hlen E; try discriminate.
  - now split.
  - cbn in E. injection E as -> E. injection Hlen as Hlen.
    destruct (IH b Hlen E) as [-> ->]. now split.
Qed.

(** Two suffixes of one string that differ in their last character. *)
Lemma suffix_last_char (s p q : string) (c d : ascii) :
  c <> d -> has_suffix s (p +:+ String c "") -> has_suffix s (q +:+ String d "") -> False.
Proof.
  intros Hne [a Ha] [b Hb]. rewrite <- app_assoc in Ha, Hb.
  assert (Hlen : String.length (a +:+ p) = String.length (b +:+ q)).
  { apply (f_equal String.length) in Ha, Hb.
    rewrite (length_app _ (String c "")) in Ha. rewrite (length_app _ (String d "")) in Hb.
    cbn in Ha, Hb. lia. }
  rewrite Ha in Hb. destruct (app_inj_length _ _ _ _ Hlen Hb) as [_ E]. congruence.
Qed.

Lemma has_suffix_endswith (s p : string) : has_suffix s p <-> endswith s p = true.
Proof. symmetry. apply endswith_spec. Qed.

Lemma not_suffix_endswith (s p : string) : ~ has_suffix s p <-> endswith s p = false.
Proof. symmetry. apply endswith_false. Qed.

(** A suffix of one character is a suffix of every non-empty suffix. *)
Lemma app_eq_last (p x n : string) (c : ascii) :
  x +:+ String c "" = p +:+ n -> n <> "" -> exists n', n = n' +:+ String c "".
Proof.
  revert x. induction p as [|a p IH]; intros x E Hn.
  - exists x. now rewrite E.
  - destruct x as [|b x].
    + cbn in E. injection E as _ E. destruct p; [now destruct n | discriminate].
    + cbn in E. injection E as _ E. now apply (IH x).
Qed.

End PyStrFacts.

(** ** Paths *)

Module PathFacts.
Import PyStr PyStrFacts PosixPath.

Lemma is_name_spec (n : string) :
  is_name n = true <-> n <> "" /\ n <> "." /\ n <> ".." /\ contains sep n = false.
Proof.
  unfold is_name. rewrite !andb_true_iff, !negb_true_iff, !String.eqb_neq. tauto.
Qed.


Lemma basename_absent (n : string) : contains sep n = false -> basename n = n.
Proof. intros Hn. unfold basename. rewrite (rfind_absent _ _ Hn). apply drop_0. Qed.

Lemma basename_after_sep (a n : string) :
  contains sep n = false -> basename (a +:+ String sep n) = n.
Proof.
  intros Hn. unfold basename. rewrite (rfind_last _ _ _ Hn).
  replace (Z.to_nat (Z.of_nat (String.length a) + 1))
    with (String.length (a +:+ "/")) by (rewrite length_app; cbn; lia).
  change (String sep n) with ("/" +:+ n). rewrite <- app_assoc. apply drop_app.
Qed.


Lemma last_sep_split (c : ascii) (p : string) :
  contains c p = true -> exists a b, p = a +:+ String c b /\ contains c b = false.
Proof.
  induction p as [|x p IH]; cbn; [discriminate |].
  destruct (contains c p) eqn:Hp.
  - intros _. destruct (IH eq_refl) as (a & b & -> & Hb). now exists (String x a), b.
  - rewrite orb_false_r. intros Hx. apply Ascii.eqb_eq in Hx as ->. now exists "", p.
Qed.

(** A base name holds no separator. *)
Lemma basename_no_sep (p : string) : contains sep (basename p) = false.
Proof.
  destruct (contains sep p) eqn:Hp.
  - destruct (last_sep_split _ _ Hp) as (a & b & -> & Hb).
    now rewrite basename_after_sep.
  - now rewrite basename_absent.
Qed.








(** A path that ends in a name does not end in a separator. *)
Lemma name_suffix_not_sep (p n : string) :
  is_name n = true -> endswith (p +:+ n) "/" = false.
Proof.
  rewrite is_name_spec. intros (Hne & _ & _ & Hsep).
  apply endswith_false. intros [x E]. symmetry in E.
  destruct (app_eq_last _ _ _ _ E Hne) as [n' ->].
  rewrite contains_app in Hsep. cbn in Hsep. now rewrite orb_true_r in Hsep.
Qed.

End PathFacts.

(** ** Timestamps *)

Module DateTimeFacts.
Import DateTime.

Lemma digit_of_digit_char (d : Z) : 0 <= d <= 9 -> digit_of (digit_char d) = Some d.
Proof.
  intros Hd. unfold digit_of, digit_char.
  rewrite nat_ascii_embedding by lia.
  replace (Z.of_nat (48 + Z.to_nat d)) with (48 + d) by lia.
  destruct (Z.leb_spec 48 (48 + d)); [| lia].
  destruct (Z.leb_spec (48 + d) 57); [| lia].
  cbn [andb]. f_equal. lia.
Qed.

Section Matching.
Context {R : Type}.
Implicit Types (k : Z -> string -> option R) (r : string) (x : R).

Lemma cls_digit_char lo hi d r k :
  0 <= d <= 9 ->
  cls lo hi (String (digit_char d) r) k
  = if (lo <=? d) && (d <=? hi) then k d r else None.
Proof. intros Hd. unfold cls. now rewrite digit_of_digit_char. Qed.

(** The two digits of a number below 100. *)
Lemma zpad2_digits v r :
  0 <= v <= 99 ->
  exists a b, 0 <= a <= 9 /\ 0 <= b <= 9 /\ v = 10 * a + b
              /\ zpad 2 v r = String (digit_char a) (String (digit_char b) r).
Proof.
  intros Hv. exists (v / 10), (v mod 10).
  repeat split; try (Z.div_mod_to_equations; lia).
  cbn [zpad]. replace (v / 10 mod 10) with (v / 10); [reflexivity |].
  symmetry. apply Z.mod_small. Z.div_mod_to_equations; lia.
Qed.

(** Decide the range tests of the character classes. *)
Ltac ranges :=
  repeat match goal with
         | |- context [?a <=? ?b] => destruct (Z.leb_spec a b); try lia
         end; cbn [andb].

Ltac two_digits v r Hv :=
  let a := fresh "a" in
  let b := fresh "b" in
  let Ha := fresh "Ha" in
  let Hb := fresh "Hb" in
  let E := fresh "E" in
  destruct (zpad2_digits v r ltac:(lia)) as (a & b & Ha & Hb & -> & E);
  rewrite E; clear E.

Ltac field Hk :=
  repeat first [ rewrite cls_digit_char by assumption
               | progress ranges
               | progress cbv beta iota ];
  now rewrite Hk.

Lemma re_m_padded v r k x :
  1 <= v <= 12 -> k v r = Some x -> re_m (zpad 2 v r) k = Some x.
Proof.
  intros Hv Hk. two_digits v r Hv. unfold re_m, alt, seq2, digit. field Hk.
Qed.

Lemma re_d_padded v r k x :
  1 <= v <= 31 -> k v r = Some x -> re_d (zpad 2 v r) k = Some x.
Proof.
  intros Hv Hk. two_digits v r Hv. unfold re_d, alt, seq2, digit. field Hk.
Qed.

Lemma re_H_padded v r k x :
  0 <= v <= 23 -> k v r = Some x -> re_H (zpad 2 v r) k = Some x.
Proof.
  intros Hv Hk. two_digits v r Hv. unfold re_H, alt, seq2, digit. field Hk.
Qed.

Lemma re_M_padded v r k x :
  0 <= v <= 59 -> k v r = Some x -> re_M (zpad 2 v r) k = Some x.
Proof.
  intros Hv Hk. two_digits v r Hv. unfold re_M, alt, seq2, digit. field Hk.
Qed.

Lemma re_S_padded v r k x :
  0 <= v <= 59 -> k v r = Some x -> re_S (zpad 2 v r) k = Some x.
Proof.
  intros Hv Hk. two_digits v r Hv. unfold re_S, alt, seq2, digit. field Hk.
Qed.

Lemma re_Y_padded v r k x :
  0 <= v <= 9999 -> k v r = Some x -> re_Y (zpad 4 v r) k = Some x.
Proof.
  intros Hv Hk.
  set (a := v / 10 / 10 / 10). set (b := v / 10 / 10 mod 10). set (c := v / 10 mod 10).
  set (d := v mod 10).
  assert (Hd : 0 <= a <= 9 /\ 0 <= b <= 9 /\ 0 <= c <= 9 /\ 0 <= d <= 9
               /\ v = 10 * (10 * (10 * a + b) + c) + d).
  { unfold a, b, c, d. Z.div_mod_to_equations. lia. }
  destruct Hd as (Ha & Hb & Hc & Hd & Hval).
  assert (E : zpad 4 v r
              = String (digit_char a) (String (digit_char b)
                  (String (digit_char c) (String (digit_char d) r)))).
  { cbn [zpad]. replace (v / 10 / 10 / 10 mod 10) with a; [reflexivity |].
    unfold a. symmetry. apply Z.mod_small. Z.div_mod_to_equations. lia. }
  rewrite E. clear E. rewrite Hval in Hk.
  unfold re_Y, seq2, digit. field Hk.
Qed.

Lemma re_f_padded v k x :
  0 <= v <= 999999 -> k v "" = Some x -> re_f (zpad 6 v "") k = Some x.
Proof.
  intros Hv Hk.
  set (a := v / 10 / 10 / 10 / 10 / 10). set (b := v / 10 / 10 / 10 / 10 mod 10).
  set (c := v / 10 / 10 / 10 mod 10). set (d := v / 10 / 10 mod 10).
  set (e := v / 10 mod 10). set (f := v mod 10).
  assert (Hd : 0 <= a <= 9 /\ 0 <= b <= 9 /\ 0 <= c <= 9 /\ 0 <= d <= 9
               /\ 0 <= e <= 9 /\ 0 <= f <= 9
               /\ v = 10 * (10 * (10 * (10 * (10 * (10 * 0 + a) + b) + c) + d) + e) + f).
  { unfold a, b, c, d, e, f. Z.div_mod_to_equations. lia. }
  destruct Hd as (Ha & Hb & Hc & Hd & He & Hf & Hval).
  assert (E : zpad 6 v ""
              = String (digit_char a) (String (digit_char b) (String (digit_char c)
                  (String (digit_char d) (String (digit_char e)
                    (String (digit_char f) "")))))).
  { cbn [zpad]. replace (v / 10 / 10 / 10 / 10 / 10 mod 10) with a; [reflexivity |].
    unfold a. symmetry. apply Z.mod_small. Z.div_mod_to_equations. lia. }
  rewrite E. clear E.
  unfold re_f. cbn [re_f_from]. rewrite !digit_of_digit_char by assumption.
  rewrite <- Hval. cbn [Nat.sub Z.of_nat Z.pow Z.pow_pos Pos.iter Nat.leb].
  rewrite Z.mul_1_r, Hk. reflexivity.
Qed.

End Matching.

(** Parsing what [isoformat] writes gives the fields back. *)
Lemma strptime_match_isoformat (d : datetime) :
  valid d = true -> strptime_match (isoformat d) = Some (d, "").
Proof.
  unfold valid. rewrite !andb_true_iff, !Z.leb_le. intros Hv.
  destruct d as [Y m dd H M S f]. cbn [dt_year dt_month dt_day dt_hour dt_minute
    dt_second dt_microsecond] in Hv.
  assert (dd <= 31).
  { unfold days_in_month in Hv.
    repeat match type of Hv with context [if ?b then _ else _] => destruct b end; lia. }
  unfold strptime_match, isoformat.
  cbn [dt_year dt_month dt_day dt_hour dt_minute dt_second dt_microsecond].
  apply re_Y_padded; [lia |]. cbn [lit Ascii.eqb Bool.eqb orb].
  apply re_m_padded; [lia |]. cbn [lit Ascii.eqb Bool.eqb orb].
  apply re_d_padded; [lia |]. cbn [lit Ascii.eqb Bool.eqb orb].
  apply re_H_padded; [lia |]. cbn [lit Ascii.eqb Bool.eqb orb].
  apply re_M_padded; [lia |]. cbn [lit Ascii.eqb Bool.eqb orb].
  apply re_S_padded; [lia |]. cbn [lit Ascii.eqb Bool.eqb orb].
  apply re_f_padded; [lia |]. reflexivity.
Qed.

(** The round trip of a timestamp through its stored form. *)
Lemma strptime_isoformat (d : datetime) :
  valid d = true -> strptime (isoformat d) = Some d.
Proof.
  intros Hv. unfold strptime. rewrite (strptime_match_isoformat d Hv).
  now rewrite Hv.
Qed.

(** [strptime] only returns what the [datetime] constructor takes. *)
Lemma strptime_valid (s : string) (d : datetime) :
  strptime s = Some d -> valid d = true.
Proof.
  unfold strptime. destruct (strptime_match s) as [[d' rest]|]; [| discriminate].
  destruct (String.eqb rest ""); [| discriminate]. cbn [andb].
  destruct (valid d') eqn:Hv; [| discriminate]. now intros [= <-].
Qed.

End DateTimeFacts.

(** ** Identifiers *)

Module UUIDFacts.
Import UUID PyStr PyStrFacts.

Lemma hex_char_is_hex (d : Z) : 0 <= d < 16 -> is_hex (hex_char d) = true.
Proof.
  intros Hd. assert (E : d = Z.of_nat (Z.to_nat d)) by lia. rewrite E.
  assert (Hn : (Z.to_nat d < 16)%nat) by lia.
  revert Hn. generalize (Z.to_nat d). clear. intros n Hn.
  do 16 (destruct n as [|n]; [reflexivity |]). lia.
Qed.

Lemma is_hex_not (c : ascii) :
  is_hex c = true -> c <> "/"%char /\ c <> "-"%char /\ c <> "."%char.
Proof.
  unfold is_hex. cbn [contains]. rewrite !orb_true_iff, !Ascii.eqb_eq.
  intros Hc. repeat destruct Hc as [Hc | Hc]; subst; easy.
Qed.

Lemma hex_pad_all_hex (w : nat) (n : Z) (acc : string) :
  all_hex acc = true -> all_hex (hex_pad w n acc) = true.
Proof.
  revert n acc. induction w as [|w IH]; intros n acc Hacc; [exact Hacc |].
  cbn [hex_pad]. apply IH. cbn [all_hex]. rewrite Hacc, andb_true_r.
  apply hex_char_is_hex. apply Z.mod_pos_bound. lia.
Qed.

Lemma hex_pad_length (w : nat) (n : Z) (acc : string) :
  String.length (hex_pad w n acc) = (w + String.length acc)%nat.
Proof.
  revert n acc. induction w as [|w IH]; intros n acc; [reflexivity |].
  cbn [hex_pad]. rewrite IH. cbn [String.length]. lia.
Qed.

Lemma all_hex_absent (c : ascii) (s : string) :
  is_hex c = false -> all_hex s = true -> contains c s = false.
Proof.
  intros Hc. induction s as [|x s IH]; [reflexivity |].
  cbn [all_hex contains]. rewrite andb_true_iff. intros [Hx Hs].
  rewrite (IH Hs), orb_false_r. apply Ascii.eqb_neq. congruence.
Qed.

(** The groups of [str(u)] put together are the 32 digits. *)
Lemma groups_of_32 (h : string) :
  String.length h = 32%nat ->
  substring 0 8 h +:+ substring 8 4 h +:+ substring 12 4 h +:+ substring 16 4 h
    +:+ drop 20 h = h.
Proof.
  intros Hlen.
  do 32 (destruct h as [|? h]; [discriminate |]).
  destruct h; [reflexivity | discriminate].
Qed.

(** Taking the dashes out of [str(u)] leaves the 32 hexadecimal digits. *)
Lemma remove_dashes (i : Z) : remove_char "-" (uuid_str i) = hex32 i.
Proof.
  assert (Hhex : all_hex (hex32 i) = true) by now apply hex_pad_all_hex.
  assert (Hlen : String.length (hex32 i) = 32%nat) by apply hex_pad_length.
  unfold uuid_str. cbv zeta. set (h := hex32 i) in *.
  rewrite !remove_char_app. change (remove_char "-" "-") with "".
  cbn [String.append]. rewrite <- !remove_char_app.
  rewrite (groups_of_32 h Hlen).
  apply remove_char_absent, all_hex_absent; [reflexivity | exact Hhex].
Qed.

(** An identifier is a file name. *)
Lemma hex32_is_name (i : Z) : PosixPath.is_name (hex32 i) = true.
Proof.
  assert (Hhex : all_hex (hex32 i) = true) by now apply hex_pad_all_hex.
  assert (Hlen : String.length (hex32 i) = 32%nat) by apply hex_pad_length.
  apply PathFacts.is_name_spec. repeat split.
  - intros E. now rewrite E in Hlen.
  - intros E. now rewrite E in Hlen.
  - intros E. now rewrite E in Hlen.
  - apply all_hex_absent; [reflexivity | exact Hhex].
Qed.

End UUIDFacts.

(** ** The file system *)

Module FSFacts.
Import PyStr PyStrFacts PosixPath PathFacts FS.

Lemma name_not_absolute (n : string) : is_name n = true -> startswith n "/" = false.
Proof.
  rewrite is_name_spec. intros (Hne & _ & _ & Hsep).
  destruct n as [|c n]; [easy |]. cbn [contains] in Hsep.
  apply orb_false_iff in Hsep as [Hc _]. cbn [startswith]. unfold sep in Hc.
  rewrite Ascii.eqb_sym. now rewrite Hc.
Qed.

(** The two shapes of [join a n] for a name [n]. *)
Lemma join_name (a n : string) :
  is_name n = true ->
  (dir_prefix a /\ join a n = a +:+ n) \/ join a n = a +:+ "/" +:+ n.
Proof.
  intros Hn. unfold join. rewrite (name_not_absolute n Hn).
  destruct (String.eqb_spec a "") as [-> | Ha]; cbn [orb].
  - left. split; [now left | reflexivity].
  - destruct (endswith a "/") eqn:He; [| now right].
    left. split; [| reflexivity]. right. now apply endswith_spec.
Qed.

(** Joining a name to a path that ends in a name writes a separator
    between them. *)
Lemma join_after_name (p m n : string) :
  is_name m = true -> is_name n = true ->
  join (p +:+ m) n = (p +:+ m) +:+ "/" +:+ n.
Proof.
  intros Hm Hn. unfold join. rewrite (name_not_absolute n Hn).
  rewrite (name_suffix_not_sep p m Hm), orb_false_r.
  assert (Hne : String.eqb (p +:+ m) "" = false).
  { apply String.eqb_neq. intros E. apply (f_equal String.length) in E.
    rewrite length_app in E. apply is_name_spec in Hm. destruct m; [tauto | cbn in E; lia]. }
  now rewrite Hne.
Qed.

(** [join a n] ends in the name [n]. *)
Lemma join_name_suffix (a n : string) :
  is_name n = true -> exists p, join a n = p +:+ n.
Proof.
  intros Hn. destruct (join_name a n Hn) as [[_ ->] | ->].
  - now exists a.
  - exists (a +:+ "/"). now rewrite app_assoc.
Qed.

Lemma split_join_name (a n : string) :
  is_name n = true ->
  exists pre, split sep (join a n) = (pre ++ [n])%list
              /\ fold_left resolve_step pre [] = key a.
Proof.
  intros Hn. pose proof Hn as Hs. apply is_name_spec in Hs.
  destruct Hs as (_ & _ & _ & Hsep).
  destruct (join_name a n Hn) as [[[-> | [q ->]] ->] | ->].
  - exists []. split; [now apply split_absent | reflexivity].
  - exists (split sep q). rewrite app_assoc.
    change ("/" +:+ n) with (String sep n).
    rewrite split_app, (split_absent _ _ Hsep). split; [reflexivity |].
    unfold key. change (q +:+ "/") with (q +:+ String sep "").
    now rewrite split_app, fold_left_app.
  - exists (split sep a). change ("/" +:+ n) with (String sep n).
    rewrite split_app, (split_absent _ _ Hsep). now split.
Qed.

Lemma resolve_step_name (acc : list string) (n : string) :
  is_name n = true -> resolve_step acc n = (acc ++ [n])%list.
Proof.
  rewrite is_name_spec. intros (H1 & H2 & H3 & _).
  apply String.eqb_neq in H1, H2, H3. unfold resolve_step. now rewrite H1, H2, H3.
Qed.

(** A name joined to a path names an entry right below it. *)
Lemma key_join_name (a n : string) :
  is_name n = true -> key (join a n) = (key a ++ [n])%list.
Proof.
  intros Hn. destruct (split_join_name a n Hn) as (pre & Hsplit & Hpre).
  unfold key at 1. rewrite Hsplit, fold_left_app, Hpre. cbn [fold_left].
  now apply resolve_step_name.
Qed.

Lemma needs_dir_join_name (a n : string) :
  is_name n = true -> needs_dir (join a n) = false.
Proof.
  intros Hn. destruct (split_join_name a n Hn) as (pre & Hsplit & _).
  unfold needs_dir. rewrite Hsplit, List.last_last.
  apply is_name_spec in Hn. destruct Hn as (H1 & H2 & H3 & _).
  apply String.eqb_neq in H1, H2, H3. now rewrite H1, H2, H3.
Qed.

Lemma join_name_nonempty (a n : string) :
  is_name n = true -> String.eqb (join a n) "" = false.
Proof.
  intros Hn. apply String.eqb_neq. intros E.
  pose proof (key_join_name a n Hn) as Hk. rewrite E in Hk.
  cbn in Hk. now destruct (key a).
Qed.

Lemma lookup_insert_other (fs : gmap (list string) node) (k k' : list string) (v : node) :
  k <> k' -> lookup (<[k := v]> fs) k' = lookup fs k'.
Proof.
  intros Hne. unfold lookup. destruct k'; [reflexivity |].
  now apply lookup_insert_ne.
Qed.

Lemma lookup_insert_same (fs : gmap (list string) node) (k : list string) (v : node) :
  k <> [] -> lookup (<[k := v]> fs) k = Some v.
Proof.
  intros Hne. unfold lookup. destruct k; [easy |]. apply lookup_insert_eq.
Qed.

Lemma snoc_not_nil {A} (l : list A) (x : A) : (l ++ [x])%list <> [].
Proof. now destruct l. Qed.

Lemma snoc_neq {A} (l : list A) (x : A) : (l ++ [x])%list <> l.
Proof.
  intros E. apply (f_equal (@List.length A)) in E.
  rewrite List.length_app in E. cbn in E. lia.
Qed.

Lemma snoc2_neq {A} (l : list A) (x y : A) : ((l ++ [x]) ++ [y])%list <> l.
Proof.
  intros E. apply (f_equal (@List.length A)) in E.
  rewrite !List.length_app in E. cbn in E. lia.
Qed.

Lemma mkdir_key_ok (fs fs' : gmap (list string) node) (k : list string) :
  mkdir_key fs k = Ok fs' ->
  lookup fs k = None /\ lookup fs (removelast k) = Some Dir /\ fs' = <[k := Dir]> fs.
Proof.
  unfold mkdir_key. destruct (lookup fs k); [discriminate |].
  destruct (lookup fs (removelast k)) as [[|c]|]; try discriminate.
  now intros [= <-].
Qed.

Lemma mkdir_ok (fs fs' : gmap (list string) node) (path : string) :
  String.eqb path "" = false -> mkdir fs path = Ok fs' ->
  lookup fs (key path) = None /\ lookup fs (removelast (key path)) = Some Dir
  /\ fs' = <[key path := Dir]> fs.
Proof. unfold mkdir. intros ->. apply mkdir_key_ok. Qed.

(** [mkdir] and [makedirs] keep what is there. *)
Lemma mkdir_key_keeps (fs fs' : gmap (list string) node) (k k' : list string) (v : node) :
  mkdir_key fs k = Ok fs' -> lookup fs k' = Some v -> lookup fs' k' = Some v.
Proof.
  intros Hmk Hk'. apply mkdir_key_ok in Hmk. destruct Hmk as (Hfree & _ & ->).
  rewrite lookup_insert_other; [exact Hk' | congruence].
Qed.

Lemma makedirs_from_keeps (rest done : list string) (fs fs' : gmap (list string) node)
      (k' : list string) (v : node) :
  makedirs_from fs done rest = Ok fs' -> lookup fs k' = Some v -> lookup fs' k' = Some v.
Proof.
  revert done fs. induction rest as [|c rest IH]; intros done fs Hmk Hk'.
  - cbn in Hmk. now injection Hmk as <-.
  - cbn [makedirs_from] in Hmk. destruct rest as [|c' rest].
    + eapply mkdir_key_keeps; eassumption.
    + destruct (lookup fs (done ++ [c])) eqn:Hp.
      * eapply IH; eassumption.
      * destruct (mkdir_key fs (done ++ [c])) as [fs1|e] eqn:Hfs1; [| discriminate].
        eapply IH; [eassumption |]. eapply mkdir_key_keeps; eassumption.
Qed.

Lemma makedirs_keeps (fs fs' : gmap (list string) node) (path : string)
      (k' : list string) (v : node) :
  makedirs fs path = Ok fs' -> lookup fs k' = Some v -> lookup fs' k' = Some v.
Proof.
  unfold makedirs. destruct (String.eqb path ""); [discriminate |].
  destruct (key path) eqn:Hk; [discriminate |].
  apply makedirs_from_keeps.
Qed.

Lemma stat_dir (fs : gmap (list string) node) (path : string) :
  String.eqb path "" = false -> lookup fs (key path) = Some Dir -> is_dir fs path = true.
Proof. intros Hne Hk. unfold is_dir, stat. now rewrite Hne, Hk. Qed.

Lemma access_lookup (fs : gmap (list string) node) (path : string) :
  access fs path = true -> exists v, lookup fs (key path) = Some v.
Proof.
  unfold access, stat. destruct (String.eqb path ""); [discriminate |].
  destruct (lookup fs (key path)) as [v|]; [eauto | discriminate].
Qed.

Lemma is_dir_lookup (fs : gmap (list string) node) (path : string) :
  is_dir fs path = true -> lookup fs (key path) = Some Dir /\ access fs path = true.
Proof.
  unfold is_dir, access, stat. destruct (String.eqb path ""); [discriminate |].
  destruct (lookup fs (key path)) as [[|c]|]; try discriminate; [easy |].
  now destruct (needs_dir path).
Qed.

Lemma copyfile_ok (fs fs' : gmap (list string) node) (src dst : string) :
  copyfile fs src dst = Ok fs' ->
  exists c, stat fs src = Ok (File c) /\ fs' = <[key dst := File c]> fs.
Proof.
  unfold copyfile.
  destruct (bool_decide (key src = key dst) && access fs src && access fs dst);
    [discriminate |].
  destruct (stat fs src) as [[|c]|[]]; try discriminate.
  destruct (String.eqb dst ""); [discriminate |].
  destruct (needs_dir dst); [discriminate |].
  destruct (lookup fs (key dst)) as [[|c']|];
    destruct (lookup fs (removelast (key dst))) as [[|c'']|]; try discriminate;
    intros [= <-]; eauto.
Qed.




Lemma getsize_file (fs : gmap (list string) node) (path c : string) :
  String.eqb path "" = false -> needs_dir path = false ->
  lookup fs (key path) = Some (File c) ->
  getsize fs path = Ok (Z.of_nat (String.length c)).
Proof. intros Hne Hnd Hp. unfold getsize, stat. now rewrite Hne, Hp, Hnd. Qed.


Lemma mkdir_key_error (fs : gmap (list string) node) (k : list string) (e : exn) :
  mkdir_key fs k = Err e -> io_error e.
Proof.
  unfold mkdir_key. destruct (lookup fs k); [now intros [= <-] |].
  destruct (lookup fs (removelast k)) as [[|c]|]; try discriminate; now intros [= <-].
Qed.

Lemma mkdir_error (fs : gmap (list string) node) (path : string) (e : exn) :
  mkdir fs path = Err e -> io_error e.
Proof.
  unfold mkdir. destruct (String.eqb path ""); [now intros [= <-] |].
  apply mkdir_key_error.
Qed.

Lemma makedirs_from_error (rest done : list string) (fs : gmap (list string) node)
      (e : exn) :
  makedirs_from fs done rest = Err e -> io_error e.
Proof.
  revert done fs. induction rest as [|c rest IH]; intros done fs; [discriminate |].
  cbn [makedirs_from]. destruct rest as [|c' rest]; [apply mkdir_key_error |].
  destruct (lookup fs (done ++ [c])).
  - apply IH.
  - destruct (mkdir_key fs (done ++ [c])) as [fs1|e1] eqn:Hmk.
    + apply IH.
    + intros [= <-]. eapply mkdir_key_error, Hmk.
Qed.

Lemma makedirs_error (fs : gmap (list string) node) (path : string) (e : exn) :
  makedirs fs path = Err e -> io_error e.
Proof.
  unfold makedirs. destruct (String.eqb path ""); [now intros [= <-] |].
  destruct (key path) eqn:Hk; [now intros [= <-] |]. apply makedirs_from_error.
Qed.

Lemma stat_error (fs : gmap (list string) node) (path : string) (e : exn) :
  stat fs path = Err e -> exists n, e = OSError n.
Proof.
  unfold stat. destruct (String.eqb path ""); [intros [= <-]; eauto |].
  destruct (lookup fs (key path)) as [[|c]|]; try discriminate.
  - destruct (needs_dir path); [intros [= <-]; eauto | discriminate].
  - intros [= <-]; eauto.
Qed.

Lemma copyfile_error (fs : gmap (list string) node) (src dst : string) (e : exn) :
  copyfile fs src dst = Err e -> io_error e.
Proof.
  unfold copyfile.
  destruct (bool_decide (key src = key dst) && access fs src && access fs dst);
    [now intros [= <-] |].
  destruct (stat fs src) as [[|c]|e'] eqn:Hs.
  - now intros [= <-].
  - destruct (String.eqb dst ""); [now intros [= <-] |].
    destruct (needs_dir dst); [now intros [= <-] |].
    destruct (lookup fs (key dst)) as [[|c']|];
      destruct (lookup fs (removelast (key dst))) as [[|c'']|];
      try discriminate; now intros [= <-].
  - destruct (stat_error _ _ _ Hs) as [n ->]. now intros [= <-].
Qed.

Lemma getsize_error (fs : gmap (list string) node) (path : string) (e : exn) :
  getsize fs path = Err e -> io_error e.
Proof.
  unfold getsize. destruct (stat fs path) as [[|c]|e'] eqn:Hs; try discriminate.
  destruct (stat_error _ _ _ Hs) as [n ->]. now intros [= <-].
Qed.

(** *** What the operations touch *)

Local Open Scope list_scope.


Lemma stat_same_lookup (fs fs' : gmap (list string) node) (path : string) :
  lookup fs' (key path) = lookup fs (key path) -> stat fs' path = stat fs path.
Proof. intros E. unfold stat. now rewrite E. Qed.




(** What [mkdir] and [makedirs] add are directories. *)
Lemma mkdir_key_file (fs fs' : gmap (list string) node) (k k' : list string) (c : string) :
  mkdir_key fs k = Ok fs' -> lookup fs' k' = Some (File c) -> lookup fs k' = Some (File c).
Proof.
  intros Hmk. pose proof (mkdir_key_ok _ _ _ Hmk) as (Hfree & _ & ->).
  destruct (decide (k = k')) as [<- | Hne].
  - destruct k as [|x k]; [discriminate |].
    unfold lookup. now rewrite lookup_insert_eq.
  - now rewrite lookup_insert_other.
Qed.

Lemma makedirs_from_file (rest done : list string) (fs fs' : gmap (list string) node)
      (k' : list string) (c : string) :
  makedirs_from fs done rest = Ok fs' -> lookup fs' k' = Some (File c) ->
  lookup fs k' = Some (File c).
Proof.
  revert done fs. induction rest as [|x rest IH]; intros done fs Hmk Hk'.
  - cbn in Hmk. now injection Hmk as <-.
  - cbn [makedirs_from] in Hmk. destruct rest as [|x' rest].
    + eapply mkdir_key_file; eassumption.
    + destruct (lookup fs (done ++ [x])) eqn:Hp.
      * eapply IH; eassumption.
      * destruct (mkdir_key fs (done ++ [x])) as [fs1|e] eqn:Hfs1; [| discriminate].
        eapply mkdir_key_file; [eassumption |]. eapply IH; eassumption.
Qed.

Lemma makedirs_file (fs fs' : gmap (list string) node) (path : string)
      (k' : list string) (c : string) :
  makedirs fs path = Ok fs' -> lookup fs' k' = Some (File c) -> lookup fs k' = Some (File c).
Proof.
  unfold makedirs. destruct (String.eqb path ""); [discriminate |].
  destruct (key path) eqn:Hk; [discriminate |]. apply makedirs_from_file.
Qed.

(** A regular file has no trailing separator in its path. *)
Lemma stat_file (fs : gmap (list string) node) (path c : string) :
  stat fs path = Ok (File c) <->
  String.eqb path "" = false /\ needs_dir path = false
  /\ lookup fs (key path) = Some (File c).
Proof.
  unfold stat. destruct (String.eqb path ""); [split; [discriminate | now intros [? _]] |].
  destruct (lookup fs (key path)) as [[|c']|].
  - split; [discriminate | now intros (_ & _ & ?)].
  - destruct (needs_dir path).
    + split; [discriminate | now intros (_ & ? & _)].
    + split; [intros [= ->]; now repeat split | now intros (_ & _ & [= ->])].
  - split; [discriminate | now intros (_ & _ & ?)].
Qed.

(** The copy: the source is a regular file that is not the destination,
    and the destination holds its content afterwards. *)
Lemma copyfile_result (fs fs' : gmap (list string) node) (src dst : string) :
  copyfile fs src dst = Ok fs' ->
  exists c, stat fs src = Ok (File c) /\ key src <> key dst
            /\ String.eqb dst "" = false /\ needs_dir dst = false
            /\ lookup fs (key dst) <> Some Dir
            /\ lookup fs (removelast (key dst)) = Some Dir
            /\ fs' = <[key dst := File c]> fs.
Proof.
  unfold copyfile.
  destruct (bool_decide (key src = key dst) && access fs src && access fs dst) eqn:Hsame;
    [discriminate |].
  destruct (stat fs src) as [[|c]|[]] eqn:Hsrc; try discriminate.
  destruct (String.eqb dst "") eqn:Hne; [discriminate |].
  destruct (needs_dir dst) eqn:Hnd; [discriminate |].
  intros Hcp. exists c.
  assert (Hkeys : key src <> key dst).
  { intros E. pose proof Hsrc as Hfile. apply stat_file in Hfile.
    destruct Hfile as (_ & _ & Hl).
    assert (Hdst : stat fs dst = Ok (File c)).
    { apply stat_file. rewrite <- E. now repeat split. }
    unfold access in Hsame. rewrite Hsrc, Hdst in Hsame.
    rewrite bool_decide_eq_true_2 in Hsame by exact E. discriminate. }
  destruct (lookup fs (key dst)) as [[|c']|] eqn:Hd;
    destruct (lookup fs (removelast (key dst))) as [[|c'']|]; try discriminate;
    injection Hcp as <-; repeat split; try assumption; discriminate.
Qed.

(** *** Well-formed trees *)



Lemma removelast_shorter {A} (k : list A) : k <> [] -> removelast k <> k.
Proof.
  intros Hk E. destruct (exists_last Hk) as (l & x & ->).
  rewrite List.removelast_last in E. now apply (snoc_neq l x).
Qed.






(** Making directories fails with [OSError] only. *)
Lemma mkdir_key_os_error (fs : gmap (list string) node) (k : list string) (e : exn) :
  mkdir_key fs k = Err e -> exists n, e = OSError n.
Proof.
  unfold mkdir_key. destruct (lookup fs k); [intros [= <-]; eauto |].
  destruct (lookup fs (removelast k)) as [[|c]|]; try discriminate; intros [= <-]; eauto.
Qed.

Lemma mkdir_os_error (fs : gmap (list string) node) (path : string) (e : exn) :
  mkdir fs path = Err e -> exists n, e = OSError n.
Proof.
  unfold mkdir. destruct (String.eqb path ""); [intros [= <-]; eauto |].
  apply mkdir_key_os_error.
Qed.

Lemma makedirs_from_os_error (rest done : list string) (fs : gmap (list string) node)
      (e : exn) :
  makedirs_from fs done rest = Err e -> exists n, e = OSError n.
Proof.
  revert done fs. induction rest as [|c rest IH]; intros done fs; [discriminate |].
  cbn [makedirs_from]. destruct rest as [|c' rest]; [apply mkdir_key_os_error |].
  destruct (lookup fs (done ++ [c])).
  - apply IH.
  - destruct (mkdir_key fs (done ++ [c])) as [fs1|e1] eqn:Hmk.
    + apply IH.
    + intros [= <-]. eapply mkdir_key_os_error, Hmk.
Qed.

Lemma makedirs_os_error (fs : gmap (list string) node) (path : string) (e : exn) :
  makedirs fs path = Err e -> exists n, e = OSError n.
Proof.
  unfold makedirs. destruct (String.eqb path ""); [intros [= <-]; eauto |].
  destruct (key path) eqn:Hk; [intros [= <-]; eauto |]. apply makedirs_from_os_error.
Qed.






End FSFacts.

Section Properties.
Context `{PropertyKeys}.

(** ** Handles *)

Lemma DataObjectHandle_init_run ident ts props dir active w :
  DataObjectHandle_init ident ts props dir active w
  = (Ok (mkDataObjectHandle ident (default (w_utcnow w) ts) props dir active), w).
Proof. reflexivity. Qed.

(** What a successful constructor call builds, and that it leaves the
    world alone. *)
Lemma FunctionalDataHandle_init_ok ident props dir ts active w h w' :
  FunctionalDataHandle_init ident props dir ts active w = (Ok h, w') ->
  w' = w
  /\ exists name, props !! PROPERTY_FILENAME = Some (VStr name)
     /\ h = mkFunctionalDataHandle
              (mkDataObjectHandle ident (default (w_utcnow w) ts) props dir active)
              (PosixPath.join dir DATA_DIRECTORY)
              (PosixPath.join (PosixPath.join dir DATA_DIRECTORY) name).
Proof.
  unfold FunctionalDataHandle_init. intros Hrun.
  rewrite (bind_ok _ _ w w' h) in Hrun. destruct Hrun as (base & w1 & Hbase & Hrun).
  rewrite DataObjectHandle_init_run in Hbase. injection Hbase as <- <-.
  cbn [properties] in Hrun. unfold getitem in Hrun.
  destruct (props !! PROPERTY_FILENAME) as [v|] eqn:Hname; [| discriminate].
  rewrite bind_ret in Hrun.
  destruct v as [| b | n | name]; try discriminate.
  cbn in Hrun. injection Hrun as <- <-. eauto.
Qed.

Lemma FunctionalDataHandle_init_str ident props dir ts active w name :
  props !! PROPERTY_FILENAME = Some (VStr name) ->
  FunctionalDataHandle_init ident props dir ts active w
  = (Ok (mkFunctionalDataHandle
           (mkDataObjectHandle ident (default (w_utcnow w) ts) props dir active)
           (PosixPath.join dir DATA_DIRECTORY)
           (PosixPath.join (PosixPath.join dir DATA_DIRECTORY) name)), w).
Proof.
  intros Hname. unfold FunctionalDataHandle_init, bind.
  rewrite DataObjectHandle_init_run. cbn [properties]. unfold getitem.
  rewrite Hname. reflexivity.
Qed.

(** A handle can be rebuilt from its own attributes, in any world. *)
Lemma FunctionalDataHandle_init_again ident props dir ts active w h w' w2 :
  FunctionalDataHandle_init ident props dir ts active w = (Ok h, w') ->
  FunctionalDataHandle_init (identifier h) (properties h) (directory h)
                            (Some (timestamp h)) (is_active h) w2 = (Ok h, w2).
Proof.
  intros Hrun. apply FunctionalDataHandle_init_ok in Hrun.
  destruct Hrun as (_ & name & Hname & ->).
  cbn [identifier properties directory timestamp is_active fdh_base].
  now rewrite (FunctionalDataHandle_init_str _ _ _ _ _ _ name).
Qed.

(** ** [create_object] *)

Lemma mime_of_suffix_world n w r w' : mime_of_suffix n w = (r, w') -> w' = w.
Proof.
  unfold mime_of_suffix.
  repeat match goal with |- context [if ?b then _ else _] => destruct b end;
    cbv [ret raise]; congruence.
Qed.

Lemma fs_update_ok op w (u : unit) w' :
  fs_update op w = (Ok u, w') ->
  exists fs', op (w_fs w) = Ok fs'
              /\ w' = mkWorld fs' (w_collection w) (w_entropy w) (w_reads w) (w_utcnow w).
Proof.
  unfold fs_update. destruct (op (w_fs w)) as [fs'|e]; [| discriminate].
  intros [= _ <-]. eauto.
Qed.

Lemma fs_get_ok {A} (op : gmap (list string) node -> result A) w a w' :
  fs_get op w = (Ok a, w') -> op (w_fs w) = Ok a /\ w' = w.
Proof. unfold fs_get. now intros [= -> <-]. Qed.

Lemma insert_object_ok (h : DataObjectHandle) w (u : unit) w' :
  insert_object h w = (Ok u, w') ->
  w_collection w !! identifier h = None
  /\ w' = mkWorld (w_fs w) (<[identifier h := to_dict h]> (w_collection w))
                 (w_entropy w) (w_reads w) (w_utcnow w).
Proof.
  unfold insert_object. destruct (w_collection w !! identifier h); [discriminate |].
  now intros [= _ <-].
Qed.

(** Creating the object directory unless it is there. *)
Lemma ensure_directory_ok present fs0 dir w (u : unit) w' :
  (if negb present then fs_update (fun fs => FS.makedirs fs dir) else ret tt) w = (Ok u, w') ->
  w_fs w = fs0 ->
  exists fs1, (if present then fs1 = fs0 else FS.makedirs fs0 dir = Ok fs1)
              /\ w' = mkWorld fs1 (w_collection w) (w_entropy w) (w_reads w) (w_utcnow w).
Proof.
  intros Hrun <-. destruct present; cbn [negb] in Hrun.
  - exists (w_fs w). split; [reflexivity |]. injection Hrun as _ <-. now destruct w.
  - apply fs_update_ok in Hrun. destruct Hrun as (fs1 & Hmk & ->). eauto.
Qed.

(** The steps of a successful call. *)
Lemma create_object_ok self filename ro w h w' :
  create_object self filename ro w = (Ok h, w') ->
  let n := prop_name_of filename in
  let ident := next_identifier w in
  let object_dir := PosixPath.join (base_directory self) ident in
  let data_dir := PosixPath.join object_dir DATA_DIRECTORY in
  let uploaded := PosixPath.join data_dir n in
  exists mime fs1 fs2 fs3 size name,
    mime_of_suffix n w = (Ok mime, w)
    /\ (if FS.access (w_fs w) object_dir then fs1 = w_fs w
        else FS.makedirs (w_fs w) object_dir = Ok fs1)
    /\ FS.mkdir fs1 data_dir = Ok fs2
    /\ FS.copyfile fs2 filename uploaded = Ok fs3
    /\ FS.getsize fs3 uploaded = Ok size
    /\ initial_properties n size mime n ro !! PROPERTY_FILENAME = Some (VStr name)
    /\ h = mkFunctionalDataHandle
             (mkDataObjectHandle ident (w_utcnow w) (initial_properties n size mime n ro)
                                 object_dir true)
             data_dir (PosixPath.join data_dir name)
    /\ w_collection w !! ident = None
    /\ w' = mkWorld fs3 (<[ident := to_dict h]> (w_collection w)) (w_entropy w)
                    (S (w_reads w)) (w_utcnow w).
Proof.
  intros Hrun. cbv zeta. unfold create_object in Hrun. cbv zeta in Hrun.
  unfold next_identifier.
  generalize dependent (prop_name_of filename). intros n Hrun.
  bind_inv Hrun. pose proof (mime_of_suffix_world _ _ _ _ Hstep) as ->.
  rename a into mime, Hstep into Hmime.
  bind_inv Hrun. unfold uuid4_str in Hstep. injection Hstep as <- <-.
  generalize dependent (PyStr.remove_char "-"
    (UUID.uuid_str (UUID.uuid4_int (w_entropy w (w_reads w))))).
  intros ident Hrun.
  remember (PosixPath.join (base_directory self) ident) as object_dir eqn:Hod.
  remember (PosixPath.join object_dir DATA_DIRECTORY) as data_dir eqn:Hdd.
  remember (PosixPath.join data_dir n) as uploaded eqn:Hup.
  bind_inv Hrun. unfold fs_read in Hstep. cbn [w_fs] in Hstep. injection Hstep as <- <-.
  bind_inv Hrun.
  apply (ensure_directory_ok _ (w_fs w)) in Hstep; [| reflexivity].
  destruct Hstep as (fs1 & Hfs1 & ->).
  cbn [w_fs w_collection w_entropy w_reads w_utcnow] in Hrun.
  bind_inv Hrun. apply fs_update_ok in Hstep. destruct Hstep as (fs2 & Hfs2 & ->).
  cbn [w_fs w_collection w_entropy w_reads w_utcnow] in Hfs2, Hrun.
  bind_inv Hrun. apply fs_update_ok in Hstep. destruct Hstep as (fs3 & Hfs3 & ->).
  cbn [w_fs w_collection w_entropy w_reads w_utcnow] in Hfs3, Hrun.
  bind_inv Hrun. apply fs_get_ok in Hstep. destruct Hstep as (Hsize & ->).
  cbn [w_fs] in Hsize. rename a2 into size.
  bind_inv Hrun. apply FunctionalDataHandle_init_ok in Hstep.
  destruct Hstep as (-> & name & Hname & ->). try rewrite <- Hdd in Hrun.
  cbn [default w_utcnow] in Hrun.
  bind_inv Hrun. apply insert_object_ok in Hstep.
  cbn [w_fs w_collection w_entropy w_reads w_utcnow identifier fdh_base] in Hstep.
  destruct Hstep as (Hfree & ->).
  unfold ret in Hrun. injection Hrun as <- <-. try rewrite <- Hdd.
  exists mime, fs1, fs2, fs3, size, name. repeat split; assumption || reflexivity.
Qed.

Lemma mime_of_suffix_gzip n w :
  has_suffix n ".nii.gz" \/ has_suffix n ".mgz" \/ has_suffix n ".mgh.gz" ->
  mime_of_suffix n w = (Ok "application/x-gzip", w).
Proof.
  rewrite !PyStrFacts.has_suffix_endswith. unfold mime_of_suffix.
  intros [-> | [-> | ->]]; rewrite ?orb_true_r; reflexivity.
Qed.

Lemma not_gzip_suffix n (c : ascii) p :
  c <> "z"%char -> has_suffix n (p +:+ String c "") ->
  PyStr.endswith n ".nii.gz" || PyStr.endswith n ".mgz" || PyStr.endswith n ".mgh.gz" = false.
Proof.
  intros Hc Hn. rewrite !orb_false_iff, <- !PyStrFacts.not_suffix_endswith.
  repeat split; intros Hz.
  - exact (PyStrFacts.suffix_last_char n p ".nii.g" c "z" Hc Hn Hz).
  - exact (PyStrFacts.suffix_last_char n p ".mg" c "z" Hc Hn Hz).
  - exact (PyStrFacts.suffix_last_char n p ".mgh.g" c "z" Hc Hn Hz).
Qed.

Lemma mime_of_suffix_nii n w :
  has_suffix n ".nii" -> mime_of_suffix n w = (Ok "application/NIfTI-1", w).
Proof.
  intros Hn. unfold mime_of_suffix.
  rewrite (not_gzip_suffix n "i" ".ni") by (easy || exact Hn).
  apply PyStrFacts.has_suffix_endswith in Hn. now rewrite Hn.
Qed.

Lemma mime_of_suffix_mgh n w :
  has_suffix n ".mgh" -> mime_of_suffix n w = (Ok "application/MGH", w).
Proof.
  intros Hn. unfold mime_of_suffix.
  rewrite (not_gzip_suffix n "h" ".mg") by (easy || exact Hn).
  assert (Hnii : PyStr.endswith n ".nii" = false).
  { apply PyStrFacts.not_suffix_endswith. intros Hi.
    exact (PyStrFacts.suffix_last_char n ".mg" ".ni" "h" "i" ltac:(easy) Hn Hi). }
  apply PyStrFacts.has_suffix_endswith in Hn. now rewrite Hnii, Hn.
Qed.

Lemma mime_of_suffix_unsupported n w :
  unsupported n ->
  mime_of_suffix n w = (Err (ValueError ("unsupported file type: " +:+ n)), w).
Proof.
  unfold unsupported, mime_of_suffix. rewrite !PyStrFacts.not_suffix_endswith.
  intros (-> & -> & -> & -> & ->). reflexivity.
Qed.

(** The suffix check fails only for an unsupported name. *)
Lemma mime_of_suffix_err n w e w' :
  mime_of_suffix n w = (Err e, w') -> unsupported n.
Proof.
  unfold mime_of_suffix, unsupported. rewrite !PyStrFacts.not_suffix_endswith.
  destruct (PyStr.endswith n ".nii.gz"), (PyStr.endswith n ".mgz"),
    (PyStr.endswith n ".mgh.gz"), (PyStr.endswith n ".nii"), (PyStr.endswith n ".mgh");
    cbn; try discriminate; intros _; repeat split.
Qed.

(** The inequalities between keys the lookups below need. *)
Lemma keys_distinct_ne :
  keys_distinct ->
  PROPERTY_FUNCDATAFILE <> PROPERTY_MIMETYPE /\ PROPERTY_READONLY <> PROPERTY_MIMETYPE
  /\ PROPERTY_NAME <> PROPERTY_READONLY /\ PROPERTY_FILENAME <> PROPERTY_READONLY
  /\ PROPERTY_FILESIZE <> PROPERTY_READONLY /\ PROPERTY_MIMETYPE <> PROPERTY_READONLY
  /\ PROPERTY_FUNCDATAFILE <> PROPERTY_READONLY
  /\ PROPERTY_FILESIZE <> PROPERTY_FILENAME /\ PROPERTY_MIMETYPE <> PROPERTY_FILENAME
  /\ PROPERTY_FUNCDATAFILE <> PROPERTY_FILENAME /\ PROPERTY_READONLY <> PROPERTY_FILENAME.
Proof.
  unfold keys_distinct. rewrite !NoDup_cons, !not_elem_of_cons. intros Hd.
  repeat split; intros E; intuition congruence.
Qed.

Lemma initial_properties_mime n size mime f ro :
  keys_distinct ->
  initial_properties n size mime f ro !! PROPERTY_MIMETYPE = Some (VStr mime).
Proof.
  intros Hd. destruct (keys_distinct_ne Hd) as (H1 & H2 & _).
  unfold initial_properties. destruct ro.
  - now rewrite lookup_insert_ne, lookup_insert_ne, lookup_insert_eq.
  - now rewrite lookup_insert_ne, lookup_insert_eq.
Qed.

Lemma create_object_mime self filename ro w mime :
  keys_distinct ->
  mime_of_suffix (prop_name_of filename) w = (Ok mime, w) ->
  assigns_mime self filename ro w mime.
Proof.
  intros Hd Hmime. split; [exact Hmime |]. intros h w' Hrun.
  apply create_object_ok in Hrun. cbv zeta in Hrun.
  destruct Hrun as (mime' & fs1 & fs2 & fs3 & size & name & Hm & _ & _ & _ & _ & _ & -> & _).
  rewrite Hmime in Hm. injection Hm as <-.
  cbn [properties fdh_base]. now apply initial_properties_mime.
Qed.

(** C1: a base name ending in .nii.gz, .mgz or .mgh.gz is assigned
    'application/x-gzip', one ending in .nii is assigned
    'application/NIfTI-1', one ending in .mgh is assigned
    'application/MGH', and for every other base name create_object raises
    the unsupported-file-type error. *)
Theorem C1_mime_type_by_suffix :
  keys_distinct ->
  forall (self : DefaultFunctionalDataManager) (filename : string) (read_only : bool)
         (w : world),
    let n := prop_name_of filename in
    (has_suffix n ".nii.gz" \/ has_suffix n ".mgz" \/ has_suffix n ".mgh.gz" ->
       assigns_mime self filename read_only w "application/x-gzip")
    /\ (has_suffix n ".nii" ->
          assigns_mime self filename read_only w "application/NIfTI-1")
    /\ (has_suffix n ".mgh" ->
          assigns_mime self filename read_only w "application/MGH")
    /\ (unsupported n ->
          fst (create_object self filename read_only w)
          = Err (ValueError ("unsupported file type: " +:+ n))).
Proof.
  intros Hd self filename ro w n. split; [| split; [| split]].
  - intros Hn. apply (create_object_mime _ _ _ _ _ Hd), mime_of_suffix_gzip, Hn.
  - intros Hn. apply (create_object_mime _ _ _ _ _ Hd), mime_of_suffix_nii, Hn.
  - intros Hn. apply (create_object_mime _ _ _ _ _ Hd), mime_of_suffix_mgh, Hn.
  - intros Hn. unfold create_object. fold n.
    now rewrite (bind_err _ _ _ _ _ (mime_of_suffix_unsupported n w Hn)).
Qed.

(** C2: for an unsupported suffix create_object raises the
    unsupported-file-type error and leaves the world as it was: no
    directory, no file copy, no document, no identifier drawn. *)
Theorem C2_unsupported_changes_nothing :
  forall (self : DefaultFunctionalDataManager) (filename : string) (read_only : bool)
         (w : world),
    unsupported (prop_name_of filename) ->
    create_object self filename read_only w
    = (Err (ValueError ("unsupported file type: " +:+ prop_name_of filename)), w).
Proof.
  intros self filename ro w Hn. unfold create_object.
  apply bind_err, mime_of_suffix_unsupported, Hn.
Qed.

Lemma initial_properties_readonly n size mime f :
  initial_properties n size mime f true !! PROPERTY_READONLY = Some (VBool true).
Proof. unfold initial_properties. apply lookup_insert_eq. Qed.

Lemma initial_properties_not_readonly n size mime f :
  keys_distinct ->
  initial_properties n size mime f false !! PROPERTY_READONLY = None.
Proof.
  intros Hd. destruct (keys_distinct_ne Hd) as (_ & _ & H1 & H2 & H3 & H4 & H5 & _).
  unfold initial_properties.
  now rewrite !lookup_insert_ne, lookup_empty by assumption.
Qed.

(** C7: with read_only=true the returned handle's properties hold the
    read-only flag set to true; with the default read_only=false they
    omit the flag. *)
Theorem C7_read_only_flag :
  keys_distinct ->
  forall (self : DefaultFunctionalDataManager) (filename : string) (w : world),
    (forall h w', create_object self filename true w = (Ok h, w') ->
                  properties h !! PROPERTY_READONLY = Some (VBool true))
    /\ (forall h w', create_object self filename false w = (Ok h, w') ->
                     properties h !! PROPERTY_READONLY = None).
Proof.
  intros Hd self filename w. split; intros h w' Hrun;
    apply create_object_ok in Hrun; cbv zeta in Hrun;
    destruct Hrun as (mime & fs1 & fs2 & fs3 & size & name & _ & _ & _ & _ & _ & _ & -> & _);
    cbn [properties fdh_base].
  - apply initial_properties_readonly.
  - now apply initial_properties_not_readonly.
Qed.

(** C8: the constructor fails whenever the properties do not contain the
    filename key, whatever the identifier, directory, timestamp and
    active flag are. *)
Theorem C8_constructor_needs_filename :
  forall (ident : string) (props : gmap string pyval) (dir : string)
         (ts : option datetime) (active : bool) (w : world),
    props !! PROPERTY_FILENAME = None ->
    FunctionalDataHandle_init ident props dir ts active w
    = (Err (KeyError PROPERTY_FILENAME), w).
Proof.
  intros ident props dir ts active w Hnone.
  unfold FunctionalDataHandle_init, bind. rewrite DataObjectHandle_init_run.
  cbn [properties]. unfold getitem. now rewrite Hnone.
Qed.

(** ** [from_dict] *)

(** The steps of a successful reconstruction. *)
Lemma from_dict_ok self doc w h w' :
  from_dict self doc w = (Ok h, w') ->
  exists id active s ts props,
    doc_id doc = Some id /\ doc_active doc = Some active
    /\ doc_timestamp doc = Some (VStr s) /\ DateTime.strptime s = Some ts
    /\ doc_properties doc = Some props
    /\ FunctionalDataHandle_init (py_str id) props
         (PosixPath.join (base_directory self) (py_str id)) (Some ts) active w = (Ok h, w').
Proof.
  unfold from_dict. intros Hrun.
  bind_inv Hrun. destruct (doc_id doc) as [id|]; [| discriminate].
  injection Hstep as <- <-.
  bind_inv Hrun. destruct (doc_active doc) as [active|]; [| discriminate].
  injection Hstep as <- <-.
  bind_inv Hrun. destruct (doc_timestamp doc) as [raw|]; [| discriminate].
  injection Hstep as <- <-.
  bind_inv Hrun. destruct raw as [| | | s]; try discriminate.
  destruct (DateTime.strptime s) as [ts|] eqn:Hts; [| discriminate].
  injection Hstep as <- <-.
  bind_inv Hrun. destruct (doc_properties doc) as [props|]; [| discriminate].
  injection Hstep as <- <-.
  exists id, active, s, ts, props. repeat split; try reflexivity; assumption.
Qed.

Lemma init_paths_derived ident props dir ts active w h w' :
  FunctionalDataHandle_init ident props dir ts active w = (Ok h, w') ->
  directory h = dir /\ properties h = props /\ paths_derived h.
Proof.
  intros Hrun. apply FunctionalDataHandle_init_ok in Hrun.
  destruct Hrun as (_ & name & Hname & ->).
  unfold paths_derived, PosixPath.join_all.
  cbn [data_directory data_file directory properties fdh_base fold_left].
  unfold DATA_DIRECTORY. repeat split. exists name. now repeat split.
Qed.

(** C4: for a handle constructed with directory d and properties p that
    contain the filename key, data_directory is d joined with 'data' and
    data_file is d joined with 'data' joined with p[filename]; handles
    returned by create_object and by from_dict have their paths derived
    in this way. *)
Theorem C4_data_file_path :
  (forall ident props dir ts active w name,
      props !! PROPERTY_FILENAME = Some (VStr name) ->
      exists h, FunctionalDataHandle_init ident props dir ts active w = (Ok h, w)
                /\ data_directory h = PosixPath.join dir "data"
                /\ data_file h = PosixPath.join (PosixPath.join dir "data") name
                /\ data_file h = PosixPath.join_all dir ["data"; name])
  /\ (forall ident props dir ts active w h w',
        FunctionalDataHandle_init ident props dir ts active w = (Ok h, w') ->
        directory h = dir /\ properties h = props /\ paths_derived h)
  /\ (forall self filename read_only w h w',
        create_object self filename read_only w = (Ok h, w') -> paths_derived h)
  /\ (forall self doc w h w',
        from_dict self doc w = (Ok h, w') -> paths_derived h).
Proof.
  split; [| split; [| split]].
  - intros ident props dir ts active w name Hname. eexists. split.
    + apply FunctionalDataHandle_init_str, Hname.
    + unfold PosixPath.join_all.
      cbn [data_directory data_file directory properties fdh_base fold_left].
      unfold DATA_DIRECTORY. now repeat split.
  - intros ident props dir ts active w h w' Hrun.
    eapply init_paths_derived, Hrun.
  - intros self filename ro w h w' Hrun.
    apply create_object_ok in Hrun. cbv zeta in Hrun.
    destruct Hrun as (mime & fs1 & fs2 & fs3 & size & name & _ & _ & _ & _ & _ & Hn & -> & _).
    unfold paths_derived, PosixPath.join_all.
    cbn [data_directory data_file directory properties fdh_base fold_left].
    unfold DATA_DIRECTORY. split; [reflexivity |]. exists name. now repeat split.
  - intros self doc w h w' Hrun. apply from_dict_ok in Hrun.
    destruct Hrun as (id & active & s & ts & props & _ & _ & _ & _ & _ & Hinit).
    now apply init_paths_derived in Hinit.
Qed.

(** C9: the experiment-associated handle built from a handle h and an
    experiment identifier e has the identifier, properties, directory,
    timestamp, active flag, data_directory and data_file of h, and e as
    its experiment_id; every e is taken. *)
Theorem C9_fmri_handle_copies :
  forall (ident : string) (props : gmap string pyval) (dir : string)
         (ts : option datetime) (active : bool) (w w' : world)
         (h : FunctionalDataHandle) (e : string) (w2 : world),
    FunctionalDataHandle_init ident props dir ts active w = (Ok h, w') ->
    exists f, FMRIDataHandle_init h e w2 = (Ok f, w2)
              /\ identifier f = identifier h /\ properties f = properties h
              /\ directory f = directory h /\ timestamp f = timestamp h
              /\ is_active f = is_active h /\ data_directory f = data_directory h
              /\ data_file f = data_file h /\ experiment_id f = e.
Proof.
  intros ident props dir ts active w w' h e w2 Hh.
  exists (mkFMRIDataHandle h e). split; [| repeat split].
  unfold FMRIDataHandle_init, bind.
  now rewrite (FunctionalDataHandle_init_again _ _ _ _ _ _ _ _ w2 Hh).
Qed.


(** C3: for a handle H returned by create_object, from_dict applied to the
    document of H gives a handle with the identifier, properties, timestamp
    and active flag of H, its directory computed from the base storage
    path and the identifier; that document is the one create_object
    stored. *)
Theorem C3_document_round_trip :
  forall (self : DefaultFunctionalDataManager) (filename : string) (read_only : bool)
         (w w' w2 : world) (h : FunctionalDataHandle),
    DateTime.valid (w_utcnow w) = true ->
    create_object self filename read_only w = (Ok h, w') ->
    w_collection w' !! identifier h = Some (to_dict h)
    /\ exists h', from_dict self (to_dict h) w2 = (Ok h', w2)
                  /\ identifier h' = identifier h /\ properties h' = properties h
                  /\ timestamp h' = timestamp h /\ is_active h' = is_active h
                  /\ directory h' = PosixPath.join (base_directory self) (identifier h)
                  /\ h' = h.
Proof.
  intros self filename ro w w' w2 h Hclock Hrun.
  apply create_object_ok in Hrun. cbv zeta in Hrun.
  destruct Hrun as (mime & fs1 & fs2 & fs3 & size & name & _ & _ & _ & _ & _ & Hn & -> & _ & ->).
  split.
  - cbn [w_collection identifier fdh_base]. apply lookup_insert_eq.
  - eexists. split.
    + unfold from_dict, to_dict, bind, ret.
      cbn [doc_id doc_active doc_timestamp doc_properties identifier timestamp
           properties is_active fdh_base py_str].
      rewrite (DateTimeFacts.strptime_isoformat _ Hclock).
      rewrite (FunctionalDataHandle_init_str _ _ _ _ _ _ name Hn).
      cbn [default]. reflexivity.
    + cbn [identifier properties timestamp is_active directory fdh_base].
      now repeat split.
Qed.


(** ** Which step raises what *)

Lemma raises_bind {A B} (P : exn -> Prop) (c : M A) (k : A -> M B) :
  raises_only P c -> (forall a, raises_only P (k a)) -> raises_only P (bind c k).
Proof.
  intros Hc Hk w e w'. unfold bind. destruct (c w) as [[a|e1] w1] eqn:Hrun.
  - apply Hk.
  - intros [= <- <-]. eapply Hc, Hrun.
Qed.

Lemma raises_weaken {A} (P Q : exn -> Prop) (c : M A) :
  (forall e, P e -> Q e) -> raises_only P c -> raises_only Q c.
Proof. intros HPQ Hc w e w' Hrun. eapply HPQ, Hc, Hrun. Qed.

Lemma raises_ret {A} (P : exn -> Prop) (a : A) : raises_only P (ret a).
Proof. intros w e w'. discriminate. Qed.

Lemma raises_fs_read {A} (P : exn -> Prop) (op : gmap (list string) node -> A) :
  raises_only P (fs_read op).
Proof. intros w e w'. discriminate. Qed.

Lemma raises_fs_update op :
  (forall fs e, op fs = Err e -> FS.io_error e) -> raises_only FS.io_error (fs_update op).
Proof.
  intros Hop w e w'. unfold fs_update. destruct (op (w_fs w)) as [fs'|e1] eqn:Hrun;
    [discriminate |].
  intros [= <- <-]. eapply Hop, Hrun.
Qed.

Lemma raises_fs_get {A} (op : gmap (list string) node -> result A) :
  (forall fs e, op fs = Err e -> FS.io_error e) -> raises_only FS.io_error (fs_get op).
Proof. intros Hop w e w'. unfold fs_get. intros [= Hrun <-]. eapply Hop, Hrun. Qed.

Lemma raises_uuid4_str (P : exn -> Prop) : raises_only P uuid4_str.
Proof. intros w e w'. discriminate. Qed.

(** The constructor raises [KeyError] for a missing file name and the
    operand error for one that is no string. *)
Lemma raises_init ident props dir ts active :
  raises_only (fun e => e = KeyError PROPERTY_FILENAME \/ e = BadOperand)
              (FunctionalDataHandle_init ident props dir ts active).
Proof.
  intros w e w'. unfold FunctionalDataHandle_init, bind.
  rewrite DataObjectHandle_init_run. cbn [properties]. unfold getitem.
  destruct (props !! PROPERTY_FILENAME) as [[| b | z | name]|]; cbn;
    intros [= <- <-]; auto.
Qed.

Lemma raises_insert_object (h : DataObjectHandle) :
  raises_only (fun e => e = DuplicateKeyError (identifier h)) (insert_object h).
Proof.
  intros w e w'. unfold insert_object.
  destruct (w_collection w !! identifier h); [| discriminate].
  now intros [= <- <-].
Qed.

Lemma raises_mime_of_suffix n :
  raises_only (fun e => e = ValueError ("unsupported file type: " +:+ n) /\ unsupported n)
              (mime_of_suffix n).
Proof.
  intros w e w' Hrun. split; [| eapply mime_of_suffix_err, Hrun].
  pose proof (mime_of_suffix_err _ _ _ _ Hrun) as Hn.
  rewrite (mime_of_suffix_unsupported n w Hn) in Hrun. now injection Hrun as <-.
Qed.

(** What [create_object] can raise: the unsupported-file-type error for an
    unsupported name, and otherwise an error of the file system, of the
    constructor or of the insert. *)
Lemma create_object_raises self filename ro :
  raises_only (fun e => (e = ValueError ("unsupported file type: " +:+ prop_name_of filename)
                         /\ unsupported (prop_name_of filename))
                        \/ ~ is_value_error e)
              (create_object self filename ro).
Proof.
  unfold create_object. cbv zeta.
  set (P := fun e => _ \/ ~ is_value_error e).
  assert (Hio : forall e, FS.io_error e -> P e) by (intros [] He; now right).
  apply raises_bind.
  { eapply raises_weaken; [| apply raises_mime_of_suffix]. intros e He. now left. }
  intros mime. apply raises_bind; [apply raises_uuid4_str |]. intros u.
  apply raises_bind; [apply raises_fs_read |]. intros present.
  apply raises_bind.
  { destruct present; cbn [negb]; [apply raises_ret |].
    apply (raises_weaken _ _ _ Hio), raises_fs_update.
    intros fs e. apply FSFacts.makedirs_error. }
  intros _. apply raises_bind.
  { apply (raises_weaken _ _ _ Hio), raises_fs_update. intros fs e. apply FSFacts.mkdir_error. }
  intros _. apply raises_bind.
  { apply (raises_weaken _ _ _ Hio), raises_fs_update.
    intros fs e. apply FSFacts.copyfile_error. }
  intros _. apply raises_bind.
  { apply (raises_weaken _ _ _ Hio), raises_fs_get. intros fs e. apply FSFacts.getsize_error. }
  intros size. apply raises_bind.
  { eapply raises_weaken; [| apply raises_init]. intros e [-> | ->]; now right. }
  intros obj. apply raises_bind; [| intros _; apply raises_ret].
  eapply raises_weaken; [| apply raises_insert_object]. intros e ->. now right.
Qed.

(** ** Directories of a new object *)

Lemma next_identifier_is_name w : PosixPath.is_name (next_identifier w) = true.
Proof. unfold next_identifier. rewrite UUIDFacts.remove_dashes. apply UUIDFacts.hex32_is_name. Qed.

Lemma data_directory_is_name : PosixPath.is_name DATA_DIRECTORY = true.
Proof. reflexivity. Qed.

(** A name that passes the suffix check is a file name. *)
Lemma accepted_is_name n w mime w' :
  mime_of_suffix (PosixPath.basename n) w = (Ok mime, w') ->
  PosixPath.is_name (PosixPath.basename n) = true.
Proof.
  intros Hm. apply PathFacts.is_name_spec.
  repeat split; try (intros E; rewrite E in Hm; discriminate Hm).
  apply PathFacts.basename_no_sep.
Qed.

Lemma supported_mime n w :
  ~ unsupported n -> exists mime, mime_of_suffix n w = (Ok mime, w).
Proof.
  intros Hn. destruct (mime_of_suffix n w) as [[mime|e] w1] eqn:Hm.
  - rewrite (mime_of_suffix_world _ _ _ _ Hm). eauto.
  - contradiction Hn. eapply mime_of_suffix_err, Hm.
Qed.

Lemma initial_properties_filename n size mime f ro :
  keys_distinct ->
  initial_properties n size mime f ro !! PROPERTY_FILENAME = Some (VStr n).
Proof.
  intros Hd.
  destruct (keys_distinct_ne Hd) as (_ & _ & _ & _ & _ & _ & _ & H1 & H2 & H3 & H4).
  unfold initial_properties. destruct ro.
  - now rewrite !lookup_insert_ne, lookup_insert_eq by assumption.
  - now rewrite !lookup_insert_ne, lookup_insert_eq by assumption.
Qed.

(** The keys of the three paths a call creates. *)
Lemma object_keys base ident n :
  PosixPath.is_name ident = true -> PosixPath.is_name n = true ->
  let object_dir := PosixPath.join base ident in
  let data_dir := PosixPath.join object_dir DATA_DIRECTORY in
  FS.key object_dir = (FS.key base ++ [ident])%list
  /\ FS.key data_dir = (FS.key object_dir ++ [DATA_DIRECTORY])%list
  /\ FS.key (PosixPath.join data_dir n)
     = ((FS.key object_dir ++ [DATA_DIRECTORY]) ++ [n])%list.
Proof.
  intros Hid Hn object_dir data_dir.
  assert (Hkd : FS.key data_dir = (FS.key object_dir ++ [DATA_DIRECTORY])%list)
    by (apply FSFacts.key_join_name, data_directory_is_name).
  split; [now apply FSFacts.key_join_name |]. split; [exact Hkd |].
  now rewrite FSFacts.key_join_name, Hkd.
Qed.

(** After a successful call the object directory and its data
    subdirectory are directories. *)
Lemma create_object_directories self filename ro w h w' :
  create_object self filename ro w = (Ok h, w') ->
  let object_dir := PosixPath.join (base_directory self) (next_identifier w) in
  identifier h = next_identifier w /\ directory h = object_dir
  /\ FS.is_dir (w_fs w') object_dir = true
  /\ FS.is_dir (w_fs w') (PosixPath.join object_dir DATA_DIRECTORY) = true.
Proof.
  intros Hrun. apply create_object_ok in Hrun. cbv zeta in Hrun |- *.
  destruct Hrun as (mime & fs1 & fs2 & fs3 & size & name & Hm & _ & Hmk & Hcp & _ & _ & -> & _ & ->).
  pose proof (accepted_is_name _ _ _ _ Hm) as Hn. fold (prop_name_of filename) in Hn.
  pose proof (next_identifier_is_name w) as Hid. clear Hm.
  remember (next_identifier w) as ident eqn:Ei. clear Ei.
  remember (prop_name_of filename) as n eqn:En. clear En.
  destruct (object_keys (base_directory self) _ _ Hid Hn) as (_ & Hkd & Hku).
  cbv zeta in Hkd, Hku.
  remember (PosixPath.join (base_directory self) ident) as object_dir.
  remember (PosixPath.join object_dir DATA_DIRECTORY) as data_dir eqn:Hdd.
  assert (Hne : String.eqb data_dir "" = false)
    by (rewrite Hdd; apply FSFacts.join_name_nonempty, data_directory_is_name).
  assert (Hne' : String.eqb object_dir "" = false)
    by (subst object_dir; now apply FSFacts.join_name_nonempty).
  apply (FSFacts.mkdir_ok _ _ _ Hne) in Hmk. destruct Hmk as (_ & Hparent & ->).
  rewrite Hkd, List.removelast_last in Hparent.
  apply FSFacts.copyfile_ok in Hcp. destruct Hcp as (c & _ & ->).
  cbn [identifier directory fdh_base w_fs].
  split; [reflexivity |]. split; [reflexivity |]. split.
  - apply FSFacts.stat_dir; [exact Hne' |].
    rewrite FSFacts.lookup_insert_other by (rewrite Hku; apply FSFacts.snoc2_neq).
    rewrite FSFacts.lookup_insert_other by (rewrite Hkd; apply FSFacts.snoc_neq).
    exact Hparent.
  - apply FSFacts.stat_dir; [exact Hne |].
    rewrite FSFacts.lookup_insert_other
      by (rewrite Hku, Hkd; apply FSFacts.snoc_neq).
    apply FSFacts.lookup_insert_same. rewrite Hkd. apply FSFacts.snoc_not_nil.
Qed.

(** A data subdirectory that is already there makes the call fail. *)
Lemma create_object_data_dir_exists self filename ro w :
  FS.access (w_fs w)
    (PosixPath.join (PosixPath.join (base_directory self) (next_identifier w))
                    DATA_DIRECTORY) = true ->
  exists e, fst (create_object self filename ro w) = Err e.
Proof.
  intros Hacc. destruct (create_object self filename ro w) as [[h|e] w'] eqn:Hrun;
    [exfalso | now exists e].
  apply create_object_ok in Hrun. cbv zeta in Hrun.
  destruct Hrun as (mime & fs1 & fs2 & fs3 & size & name & _ & Hfs1 & Hmk & _).
  remember (PosixPath.join (base_directory self) (next_identifier w)) as object_dir.
  remember (PosixPath.join object_dir DATA_DIRECTORY) as data_dir eqn:Hdd.
  assert (Hne : String.eqb data_dir "" = false)
    by (rewrite Hdd; apply FSFacts.join_name_nonempty, data_directory_is_name).
  apply FSFacts.access_lookup in Hacc. destruct Hacc as [v Hv].
  apply (FSFacts.mkdir_ok _ _ _ Hne) in Hmk. destruct Hmk as (Hfree & _).
  destruct (FS.access (w_fs w) object_dir).
  - subst fs1. congruence.
  - rewrite (FSFacts.makedirs_keeps _ _ _ _ _ Hfs1 Hv) in Hfree. discriminate.
Qed.




(** ** More about [create_object] and [from_dict] *)

(** The data directory of a returned handle did not exist before the
    call. *)
Lemma create_object_new_data_dir self filename ro w h w' :
  create_object self filename ro w = (Ok h, w') ->
  data_directory h
  = PosixPath.join (PosixPath.join (base_directory self) (next_identifier w)) DATA_DIRECTORY
  /\ FS.access (w_fs w) (data_directory h) = false
  /\ FS.is_dir (w_fs w') (data_directory h) = true.
Proof.
  intros Hrun.
  destruct (create_object_directories _ _ _ _ _ _ Hrun) as (_ & _ & _ & Hdir).
  assert (Hdd : data_directory h
                = PosixPath.join (PosixPath.join (base_directory self) (next_identifier w))
                                 DATA_DIRECTORY).
  { apply create_object_ok in Hrun. cbv zeta in Hrun.
    now destruct Hrun as (? & ? & ? & ? & ? & ? & _ & _ & _ & _ & _ & _ & -> & _). }
  rewrite Hdd. split; [reflexivity |]. split; [| exact Hdir].
  destruct (FS.access (w_fs w) _) eqn:Hacc; [exfalso | reflexivity].
  destruct (create_object_data_dir_exists self filename ro w Hacc) as [e He].
  now rewrite Hrun in He.
Qed.

Lemma join_name_inj base a b :
  PosixPath.is_name a = true -> PosixPath.is_name b = true ->
  PosixPath.join base a = PosixPath.join base b -> a = b.
Proof.
  intros Ha Hb E. apply (f_equal FS.key) in E.
  rewrite !FSFacts.key_join_name in E by assumption.
  apply app_inj_tail in E. now destruct E as [_ [= ->]].
Qed.

(** X1: two successful calls of create_object, one after the other on the
    same manager, return handles with different identifiers and different
    directories; the data directory of a returned handle never existed
    before the call that returned it. *)
Theorem X1_successive_handles_differ :
  forall (self : DefaultFunctionalDataManager) (f1 f2 : string) (r1 r2 : bool)
         (w w1 w2 : world) (h1 h2 : FunctionalDataHandle),
    create_object self f1 r1 w = (Ok h1, w1) ->
    create_object self f2 r2 w1 = (Ok h2, w2) ->
    identifier h1 <> identifier h2 /\ directory h1 <> directory h2
    /\ data_directory h1 <> data_directory h2
    /\ FS.access (w_fs w) (data_directory h1) = false
    /\ FS.access (w_fs w1) (data_directory h2) = false.
Proof.
  intros self f1 f2 r1 r2 w w1 w2 h1 h2 Hrun1 Hrun2.
  destruct (create_object_new_data_dir _ _ _ _ _ _ Hrun1) as (Hd1 & Hnew1 & Hdir1).
  destruct (create_object_new_data_dir _ _ _ _ _ _ Hrun2) as (Hd2 & Hnew2 & _).
  destruct (create_object_directories _ _ _ _ _ _ Hrun1) as (Hid1 & Ho1 & _).
  destruct (create_object_directories _ _ _ _ _ _ Hrun2) as (Hid2 & Ho2 & _).
  cbv zeta in Ho1, Ho2.
  assert (Hdata : data_directory h1 <> data_directory h2).
  { intros E. apply FSFacts.is_dir_lookup in Hdir1. destruct Hdir1 as [_ Hacc].
    rewrite E in Hacc. congruence. }
  assert (Hids : identifier h1 <> identifier h2).
  { intros E. apply Hdata. rewrite Hd1, Hd2. rewrite Hid1, Hid2 in E. now rewrite E. }
  repeat split; try assumption.
  intros E. apply Hids. rewrite Ho1, Ho2 in E. rewrite Hid1, Hid2.
  eapply join_name_inj; [apply next_identifier_is_name .. | exact E].
Qed.

(** X2: the identifier of a handle returned by create_object is the 32
    lower-case hexadecimal digits of the UUID drawn, without dashes: it is
    a single path component, so that the object directory lies right
    below the base directory; one reading of the random source is used. *)
Theorem X2_identifier_shape :
  forall (self : DefaultFunctionalDataManager) (filename : string) (read_only : bool)
         (w w' : world) (h : FunctionalDataHandle),
    create_object self filename read_only w = (Ok h, w') ->
    identifier h = UUID.hex32 (UUID.uuid4_int (w_entropy w (w_reads w)))
    /\ String.length (identifier h) = 32%nat
    /\ UUID.all_hex (identifier h) = true
    /\ PyStr.contains "-" (identifier h) = false
    /\ PyStr.contains "/" (identifier h) = false
    /\ FS.key (directory h) = (FS.key (base_directory self) ++ [identifier h])%list
    /\ w_reads w' = S (w_reads w).
Proof.
  intros self filename ro w w' h Hrun.
  destruct (create_object_directories _ _ _ _ _ _ Hrun) as (Hid & Hdir & _).
  cbv zeta in Hdir.
  assert (Hreads : w_reads w' = S (w_reads w)).
  { apply create_object_ok in Hrun. cbv zeta in Hrun.
    now destruct Hrun as (? & ? & ? & ? & ? & ? & _ & _ & _ & _ & _ & _ & _ & _ & ->). }
  assert (Hhex : identifier h = UUID.hex32 (UUID.uuid4_int (w_entropy w (w_reads w)))).
  { rewrite Hid. unfold next_identifier. apply UUIDFacts.remove_dashes. }
  assert (Hall : UUID.all_hex (identifier h) = true).
  { rewrite Hhex. now apply UUIDFacts.hex_pad_all_hex. }
  split; [exact Hhex |]. split; [rewrite Hhex; apply UUIDFacts.hex_pad_length |].
  split; [exact Hall |].
  split; [apply UUIDFacts.all_hex_absent; [reflexivity | exact Hall] |].
  split; [apply UUIDFacts.all_hex_absent; [reflexivity | exact Hall] |].
  split; [| exact Hreads].
  rewrite Hdir, Hid. apply FSFacts.key_join_name, next_identifier_is_name.
Qed.

(** A document with its four fields, a timestamp that parses and a
    properties mapping is handed to the constructor. *)
Lemma from_dict_run self doc w id active s ts props :
  doc_id doc = Some id -> doc_active doc = Some active ->
  doc_timestamp doc = Some (VStr s) -> DateTime.strptime s = Some ts ->
  doc_properties doc = Some props ->
  from_dict self doc w
  = FunctionalDataHandle_init (py_str id) props
      (PosixPath.join (base_directory self) (py_str id)) (Some ts) active w.
Proof.
  intros Hid Hact Hraw Hts Hprops. unfold from_dict, bind, ret.
  rewrite Hid, Hact, Hraw. cbv beta iota. rewrite Hts. cbv beta iota.
  rewrite Hprops. reflexivity.
Qed.

(** X3: the directory is not part of a document: a document that one
    manager reconstructs is reconstructed by a manager with any other
    base directory, with the same identifier, timestamp, properties and
    active flag, and with the paths below the other base directory. *)
Theorem X3_from_dict_relocation :
  forall (self other : DefaultFunctionalDataManager) (doc : document) (w w' w2 : world)
         (h : FunctionalDataHandle),
    from_dict self doc w = (Ok h, w') ->
    exists h2 name,
      from_dict other doc w2 = (Ok h2, w2)
      /\ identifier h2 = identifier h /\ timestamp h2 = timestamp h
      /\ properties h2 = properties h /\ is_active h2 = is_active h
      /\ directory h2 = PosixPath.join (base_directory other) (identifier h)
      /\ properties h !! PROPERTY_FILENAME = Some (VStr name)
      /\ data_file h2 = PosixPath.join (PosixPath.join (directory h2) DATA_DIRECTORY) name.
Proof.
  intros self other doc w w' w2 h Hrun. apply from_dict_ok in Hrun.
  destruct Hrun as (id & active & s & ts & props & Hid & Hact & Hraw & Hts & Hprops & Hinit).
  apply FunctionalDataHandle_init_ok in Hinit. destruct Hinit as (_ & name & Hname & ->).
  eexists. exists name. split.
  - rewrite (from_dict_run other doc w2 id active s ts props) by assumption.
    apply FunctionalDataHandle_init_str, Hname.
  - cbn [identifier timestamp properties is_active directory data_file fdh_base default].
    now repeat split.
Qed.

(** X4: the outcome of from_dict.  It succeeds exactly when the document
    has its four fields, the timestamp is a string strptime accepts, and
    the properties hold a string under the filename key; it then leaves
    the world alone.  Otherwise it raises, in this order of precedence:
    KeyError for _id, active and timestamp, the operand error for a
    timestamp that is no string, ValueError for one that does not parse,
    KeyError for properties and for the filename key. *)
Theorem X4_from_dict_outcome :
  forall (self : DefaultFunctionalDataManager) (doc : document) (w : world),
    (forall h w',
        from_dict self doc w = (Ok h, w') <->
        exists id active s ts props name,
          doc_id doc = Some id /\ doc_active doc = Some active
          /\ doc_timestamp doc = Some (VStr s) /\ DateTime.strptime s = Some ts
          /\ doc_properties doc = Some props
          /\ props !! PROPERTY_FILENAME = Some (VStr name)
          /\ w' = w
          /\ h = mkFunctionalDataHandle
                   (mkDataObjectHandle (py_str id) ts props
                      (PosixPath.join (base_directory self) (py_str id)) active)
                   (PosixPath.join (PosixPath.join (base_directory self) (py_str id))
                                   DATA_DIRECTORY)
                   (PosixPath.join
                      (PosixPath.join (PosixPath.join (base_directory self) (py_str id))
                                      DATA_DIRECTORY) name))
    /\ (doc_id doc = None -> from_dict self doc w = (Err (KeyError "_id"), w))
    /\ (forall id, doc_id doc = Some id -> doc_active doc = None ->
                   from_dict self doc w = (Err (KeyError "active"), w))
    /\ (forall id active, doc_id doc = Some id -> doc_active doc = Some active ->
          (doc_timestamp doc = None ->
           from_dict self doc w = (Err (KeyError "timestamp"), w))
          /\ (forall v, doc_timestamp doc = Some v -> (forall s, v <> VStr s) ->
                        from_dict self doc w = (Err BadOperand, w))
          /\ (forall s, doc_timestamp doc = Some (VStr s) -> DateTime.strptime s = None ->
                        exists msg, from_dict self doc w = (Err (ValueError msg), w))
          /\ (forall s ts, doc_timestamp doc = Some (VStr s) ->
                           DateTime.strptime s = Some ts ->
                (doc_properties doc = None ->
                 from_dict self doc w = (Err (KeyError "properties"), w))
                /\ (forall props, doc_properties doc = Some props ->
                                  props !! PROPERTY_FILENAME = None ->
                      from_dict self doc w = (Err (KeyError PROPERTY_FILENAME), w)))).
Proof.
  intros self doc w. split; [| split; [| split]].
  - intros h w'. split.
    + intros Hrun. apply from_dict_ok in Hrun.
      destruct Hrun as (id & active & s & ts & props & Hid & Hact & Hraw & Hts & Hprops & Hinit).
      apply FunctionalDataHandle_init_ok in Hinit. destruct Hinit as (-> & name & Hname & ->).
      exists id, active, s, ts, props, name. now repeat split.
    + intros (id & active & s & ts & props & name & Hid & Hact & Hraw & Hts & Hprops
              & Hname & -> & ->).
      rewrite (from_dict_run self doc w id active s ts props) by assumption.
      apply FunctionalDataHandle_init_str, Hname.
  - intros Hid. unfold from_dict, bind, ret, raise. now rewrite Hid.
  - intros id Hid Hact. unfold from_dict, bind, ret, raise. now rewrite Hid, Hact.
  - intros id active Hid Hact. split; [| split; [| split]].
    + intros Hraw. unfold from_dict, bind, ret, raise. now rewrite Hid, Hact, Hraw.
    + intros v Hraw Hv. unfold from_dict, bind, ret, raise. rewrite Hid, Hact, Hraw.
      destruct v as [| b | z | s]; try reflexivity. now contradiction (Hv s).
    + intros s Hraw Hts. unfold from_dict, bind, ret, raise. rewrite Hid, Hact, Hraw.
      cbv beta iota. rewrite Hts. eexists. reflexivity.
    + intros s ts Hraw Hts. split.
      * intros Hprops. unfold from_dict, bind, ret, raise. rewrite Hid, Hact, Hraw.
        cbv beta iota. rewrite Hts. cbv beta iota. now rewrite Hprops.
      * intros props Hprops Hname.
        rewrite (from_dict_run self doc w id active s ts props) by assumption.
        unfold FunctionalDataHandle_init, bind. rewrite DataObjectHandle_init_run.
        cbn [properties]. unfold getitem. now rewrite Hname.
Qed.

(** X5: the paths of a handle returned by create_object, written out:
    data_directory is the directory followed by '/data', data_file is the
    directory followed by '/data/' and the base name of the normalised
    input path, and upload_file is the same path. *)
Theorem X5_created_paths_written_out :
  keys_distinct ->
  forall (self : DefaultFunctionalDataManager) (filename : string) (read_only : bool)
         (w w' : world) (h : FunctionalDataHandle),
    create_object self filename read_only w = (Ok h, w') ->
    data_directory h = directory h +:+ "/data"
    /\ data_file h = directory h +:+ "/data/" +:+ prop_name_of filename
    /\ upload_file h = data_file h
    /\ exists p, directory h = p +:+ identifier h
                 /\ (p = base_directory self \/ p = base_directory self +:+ "/").
Proof.
  intros Hd self filename ro w w' h Hrun.
  pose proof (next_identifier_is_name w) as Hid.
  apply create_object_ok in Hrun. cbv zeta in Hrun.
  destruct Hrun as (mime & fs1 & fs2 & fs3 & size & name & Hm & _ & _ & _ & _ & Hn & -> & _).
  pose proof (accepted_is_name _ _ _ _ Hm) as Hname. fold (prop_name_of filename) in Hname.
  rewrite (initial_properties_filename _ _ _ _ _ Hd) in Hn. injection Hn as <-.
  unfold upload_file. cbn [data_directory data_file directory identifier fdh_base].
  remember (next_identifier w) as ident eqn:Ei. clear Ei.
  remember (prop_name_of filename) as n eqn:En. clear En Hm.
  destruct (FSFacts.join_name_suffix (base_directory self) ident Hid) as [p Hp].
  assert (Hdata : PosixPath.join (PosixPath.join (base_directory self) ident) DATA_DIRECTORY
                  = PosixPath.join (base_directory self) ident +:+ "/data").
  { rewrite Hp. now apply FSFacts.join_after_name. }
  rewrite Hdata. split; [reflexivity |]. split; [| split; [reflexivity |]].
  - rewrite Hp. change ((p +:+ ident) +:+ "/data") with ((p +:+ ident) +:+ "/" +:+ "data").
    rewrite <- (PyStrFacts.app_assoc (p +:+ ident) "/" "data").
    rewrite <- PyStrFacts.app_assoc.
    rewrite (FSFacts.join_after_name ((p +:+ ident) +:+ "/") "data" n eq_refl Hname).
    rewrite !PyStrFacts.app_assoc. reflexivity.
  - destruct (FSFacts.join_name (base_directory self) ident Hid) as [[_ E] | E].
    + exists (base_directory self). split; [exact E | now left].
    + exists (base_directory self +:+ "/"). rewrite PyStrFacts.app_assoc.
      split; [exact E | now right].
Qed.

(** ** The file system after [create_object] *)

Local Open Scope list_scope.

(** The steps of a successful call, with what each of them found and
    left in the file system. *)
Lemma create_object_steps self filename ro w h w' :
  create_object self filename ro w = (Ok h, w') ->
  exists ident n object_dir data_dir uploaded mime fs1 fs2 fs3 c name,
    (ident = next_identifier w /\ n = prop_name_of filename
     /\ PosixPath.is_name ident = true /\ PosixPath.is_name n = true)
    /\ (object_dir = PosixPath.join (base_directory self) ident
        /\ data_dir = PosixPath.join object_dir DATA_DIRECTORY
        /\ uploaded = PosixPath.join data_dir n)
    /\ (FS.key object_dir = FS.key (base_directory self) ++ [ident]
        /\ FS.key data_dir = FS.key object_dir ++ [DATA_DIRECTORY]
        /\ FS.key uploaded = FS.key data_dir ++ [n])
    /\ (if FS.access (w_fs w) object_dir then fs1 = w_fs w
        else FS.makedirs (w_fs w) object_dir = Ok fs1)
    /\ (FS.lookup fs1 (FS.key data_dir) = None
        /\ FS.lookup fs1 (FS.key object_dir) = Some Dir
        /\ fs2 = <[FS.key data_dir := Dir]> fs1)
    /\ (FS.stat fs2 filename = Ok (File c) /\ FS.key filename <> FS.key uploaded
        /\ FS.lookup fs2 (FS.key uploaded) <> Some Dir
        /\ fs3 = <[FS.key uploaded := File c]> fs2
        /\ FS.stat fs3 uploaded = Ok (File c))
    /\ (initial_properties n (Z.of_nat (String.length c)) mime n ro !! PROPERTY_FILENAME
          = Some (VStr name)
        /\ h = mkFunctionalDataHandle
                 (mkDataObjectHandle ident (w_utcnow w)
                    (initial_properties n (Z.of_nat (String.length c)) mime n ro)
                    object_dir true)
                 data_dir (PosixPath.join data_dir name))
    /\ (w_collection w !! ident = None
        /\ w' = mkWorld fs3 (<[ident := to_dict h]> (w_collection w)) (w_entropy w)
                        (S (w_reads w)) (w_utcnow w)).
Proof.
  intros Hrun. apply create_object_ok in Hrun. cbv zeta in Hrun.
  destruct Hrun as (mime & fs1 & fs2 & fs3 & size & name & Hm & Hfs1 & Hmk & Hcp & Hsize
                    & Hname & Hh & Hfree & Hw').
  pose proof (accepted_is_name _ _ _ _ Hm) as Hn. fold (prop_name_of filename) in Hn.
  pose proof (next_identifier_is_name w) as Hid. clear Hm.
  destruct (object_keys (base_directory self) _ _ Hid Hn) as (Hko & Hkd & Hku).
  cbv zeta in Hko, Hkd, Hku. rewrite <- Hkd in Hku.
  remember (next_identifier w) as ident eqn:Ei.
  remember (prop_name_of filename) as n eqn:En.
  remember (PosixPath.join (base_directory self) ident) as object_dir eqn:Hod.
  remember (PosixPath.join object_dir DATA_DIRECTORY) as data_dir eqn:Hdd.
  remember (PosixPath.join data_dir n) as uploaded eqn:Hup.
  assert (Hne : String.eqb data_dir "" = false)
    by (rewrite Hdd; apply FSFacts.join_name_nonempty, data_directory_is_name).
  assert (Hne' : String.eqb uploaded "" = false)
    by (rewrite Hup; now apply FSFacts.join_name_nonempty).
  assert (Hnd : FS.needs_dir uploaded = false)
    by (rewrite Hup; now apply FSFacts.needs_dir_join_name).
  apply (FSFacts.mkdir_ok _ _ _ Hne) in Hmk. destruct Hmk as (Hfree1 & Hparent & Hfs2).
  rewrite Hkd, List.removelast_last in Hparent.
  apply FSFacts.copyfile_result in Hcp.
  destruct Hcp as (c & Hsrc & Hkeys & _ & _ & Hnodir & _ & Hfs3).
  assert (Hup3 : FS.stat fs3 uploaded = Ok (File c)).
  { apply FSFacts.stat_file. repeat split; try assumption.
    rewrite Hfs3. apply FSFacts.lookup_insert_same. rewrite Hku. apply FSFacts.snoc_not_nil. }
  assert (Hsz : size = Z.of_nat (String.length c)).
  { unfold FS.getsize in Hsize. rewrite Hup3 in Hsize. now injection Hsize. }
  subst size.
  exists ident, n, object_dir, data_dir, uploaded, mime, fs1, fs2, fs3, c, name.
  repeat split; assumption.
Qed.

Lemma keys_distinct_size :
  keys_distinct ->
  PROPERTY_MIMETYPE <> PROPERTY_FILESIZE /\ PROPERTY_FUNCDATAFILE <> PROPERTY_FILESIZE
  /\ PROPERTY_READONLY <> PROPERTY_FILESIZE.
Proof.
  unfold keys_distinct. rewrite !NoDup_cons, !not_elem_of_cons. intros Hd.
  repeat split; intros E; intuition congruence.
Qed.

Lemma initial_properties_filesize n size mime f ro :
  keys_distinct ->
  initial_properties n size mime f ro !! PROPERTY_FILESIZE = Some (VInt size).
Proof.
  intros Hd. destruct (keys_distinct_size Hd) as (H1 & H2 & H3).
  unfold initial_properties. destruct ro.
  - now rewrite !lookup_insert_ne, lookup_insert_eq by assumption.
  - now rewrite !lookup_insert_ne, lookup_insert_eq by assumption.
Qed.

(** What the directories made on the way leave of a regular file. *)
Lemma ensured_file (present : bool) (fs fs1 : gmap (list string) node) (dir : string)
      (k : list string) (c : string) :
  (if present then fs1 = fs else FS.makedirs fs dir = Ok fs1) ->
  FS.lookup fs1 k = Some (File c) -> FS.lookup fs k = Some (File c).
Proof.
  destruct present; [now intros -> |]. intros Hmk. now apply (FSFacts.makedirs_file _ _ _ _ _ Hmk).
Qed.




(** X6: a successful create_object copies the input file: the input path
    named a regular file before the call, after the call upload_file (the
    same path as data_file) names a regular file with the same content,
    the input file is still there unchanged, and the file size property
    is the length of that content. *)
Theorem X6_file_is_copied :
  keys_distinct ->
  forall (self : DefaultFunctionalDataManager) (filename : string) (read_only : bool)
         (w w' : world) (h : FunctionalDataHandle),
    create_object self filename read_only w = (Ok h, w') ->
    exists content,
      FS.stat (w_fs w) filename = Ok (File content)
      /\ FS.stat (w_fs w') (upload_file h) = Ok (File content)
      /\ FS.stat (w_fs w') filename = Ok (File content)
      /\ properties h !! PROPERTY_FILESIZE
         = Some (VInt (Z.of_nat (String.length content))).
Proof.
  intros Hd self filename ro w w' h Hrun.
  destruct (create_object_steps _ _ _ _ _ _ Hrun)
    as (ident & n & object_dir & data_dir & uploaded & mime & fs1 & fs2 & fs3 & c & name
        & _ & (_ & _ & Hup) & (_ & Hkd & Hku) & Hfs1 & (Hfree1 & _ & Hfs2)
        & (Hsrc & Hkeys & _ & Hfs3 & Hup3) & (Hname & ->) & (_ & ->)).
  rewrite (initial_properties_filename _ _ _ _ _ Hd) in Hname. injection Hname as <-.
  unfold upload_file. cbn [data_file properties fdh_base w_fs]. rewrite <- Hup.
  exists c.
  pose proof Hsrc as Hfile. apply FSFacts.stat_file in Hfile.
  destruct Hfile as (Hne & Hnd & Hl2).
  assert (Hl1 : FS.lookup fs1 (FS.key filename) = Some (File c)).
  { rewrite Hfs2 in Hl2. destruct (decide (FS.key data_dir = FS.key filename)) as [E | Hne2].
    - rewrite <- E in Hl2. rewrite FSFacts.lookup_insert_same in Hl2; [discriminate |].
      rewrite Hkd. apply FSFacts.snoc_not_nil.
    - now rewrite FSFacts.lookup_insert_other in Hl2. }
  split; [| split; [exact Hup3 | split]].
  - apply FSFacts.stat_file. repeat split; try assumption.
    eapply ensured_file; eassumption.
  - rewrite <- Hsrc. apply FSFacts.stat_same_lookup. rewrite Hfs3.
    apply FSFacts.lookup_insert_other. congruence.
  - now apply initial_properties_filesize.
Qed.



(** ** Failing calls *)

Lemma fs_update_err op w e w' :
  fs_update op w = (Err e, w') -> op (w_fs w) = Err e /\ w' = w.
Proof.
  unfold fs_update. destruct (op (w_fs w)) as [fs'|e1]; [discriminate |].
  now intros [= -> <-].
Qed.

Lemma init_world ident props dir ts active w r w' :
  FunctionalDataHandle_init ident props dir ts active w = (r, w') -> w' = w.
Proof.
  unfold FunctionalDataHandle_init, bind. rewrite DataObjectHandle_init_run.
  cbn [properties]. unfold getitem.
  destruct (props !! PROPERTY_FILENAME) as [[| b | z | name]|]; cbn; now intros [= _ <-].
Qed.

Lemma insert_object_err (h : DataObjectHandle) w e w' :
  insert_object h w = (Err e, w') -> w' = w.
Proof.
  unfold insert_object. destruct (w_collection w !! identifier h); [| discriminate].
  now intros [= _ <-].
Qed.

(** Where a failing call stopped, and the world it left. *)
Lemma create_object_failure self filename ro w e w' :
  create_object self filename ro w = (Err e, w') ->
  exists n ident object_dir data_dir uploaded,
    (n = prop_name_of filename /\ ident = next_identifier w
     /\ object_dir = PosixPath.join (base_directory self) ident
     /\ data_dir = PosixPath.join object_dir DATA_DIRECTORY
     /\ uploaded = PosixPath.join data_dir n)
    /\ ((unsupported n /\ e = ValueError ("unsupported file type: " +:+ n) /\ w' = w)
        \/ (~ unsupported n
            /\ exists fs,
                w' = mkWorld fs (w_collection w) (w_entropy w) (S (w_reads w)) (w_utcnow w)
                /\ ((FS.access (w_fs w) object_dir = false
                     /\ FS.makedirs (w_fs w) object_dir = Err e /\ fs = w_fs w)
                    \/ exists fs1,
                        (if FS.access (w_fs w) object_dir then fs1 = w_fs w
                         else FS.makedirs (w_fs w) object_dir = Ok fs1)
                        /\ ((FS.mkdir fs1 data_dir = Err e /\ fs = fs1)
                            \/ exists fs2,
                                FS.mkdir fs1 data_dir = Ok fs2
                                /\ ((FS.copyfile fs2 filename uploaded = Err e /\ fs = fs2)
                                    \/ (FS.copyfile fs2 filename uploaded = Ok fs
                                        /\ ~ FS.io_error e)))))).
Proof.
  intros Hrun. unfold create_object in Hrun. cbv zeta in Hrun. unfold next_identifier.
  exists (prop_name_of filename).
  remember (prop_name_of filename) as n eqn:En.
  apply bind_err_inv in Hrun. destruct Hrun as [Herr | (mime & w1 & Hm & Hrun)].
  { pose proof (mime_of_suffix_world _ _ _ _ Herr) as ->.
    destruct (raises_mime_of_suffix n _ _ _ Herr) as [-> Hn].
    do 4 eexists. split; [repeat split |]. now left. }
  pose proof (mime_of_suffix_world _ _ _ _ Hm) as ->.
  assert (Hsup : ~ unsupported n).
  { intros Hn. rewrite (mime_of_suffix_unsupported n w Hn) in Hm. discriminate. }
  apply bind_err_inv in Hrun. destruct Hrun as [Herr | (u & w1 & Hu & Hrun)];
    [discriminate |].
  unfold uuid4_str in Hu. injection Hu as <- <-.
  remember (PyStr.remove_char "-"
              (UUID.uuid_str (UUID.uuid4_int (w_entropy w (w_reads w))))) as ident eqn:Ei.
  remember (PosixPath.join (base_directory self) ident) as object_dir eqn:Hod.
  remember (PosixPath.join object_dir DATA_DIRECTORY) as data_dir eqn:Hdd.
  remember (PosixPath.join data_dir n) as uploaded eqn:Hup.
  exists ident, object_dir, data_dir, uploaded. split; [now repeat split |].
  right. split; [exact Hsup |].
  apply bind_err_inv in Hrun. destruct Hrun as [Herr | (present & w1 & Hp & Hrun)];
    [discriminate |].
  unfold fs_read in Hp. cbn [w_fs] in Hp. injection Hp as <- <-.
  apply bind_err_inv in Hrun. destruct Hrun as [Herr | (u1 & w1 & Hens & Hrun)].
  { destruct (FS.access (w_fs w) object_dir) eqn:Hacc; cbn [negb] in Herr;
      [discriminate |].
    apply fs_update_err in Herr. destruct Herr as [Hmk ->]. cbn [w_fs] in Hmk.
    eexists. split; [reflexivity |]. left. now repeat split. }
  apply (ensure_directory_ok _ (w_fs w)) in Hens; [| reflexivity].
  destruct Hens as (fs1 & Hfs1 & ->).
  cbn [w_fs w_collection w_entropy w_reads w_utcnow] in Hrun.
  apply bind_err_inv in Hrun. destruct Hrun as [Herr | (u2 & w1 & Hmk & Hrun)].
  { apply fs_update_err in Herr. destruct Herr as [Hmk ->]. cbn [w_fs] in Hmk.
    eexists. split; [reflexivity |]. right. exists fs1. split; [exact Hfs1 |]. now left. }
  apply fs_update_ok in Hmk. destruct Hmk as (fs2 & Hfs2 & ->).
  cbn [w_fs w_collection w_entropy w_reads w_utcnow] in Hfs2, Hrun.
  apply bind_err_inv in Hrun. destruct Hrun as [Herr | (u3 & w1 & Hcp & Hrun)].
  { apply fs_update_err in Herr. destruct Herr as [Hcp ->]. cbn [w_fs] in Hcp.
    eexists. split; [reflexivity |]. right. exists fs1. split; [exact Hfs1 |].
    right. exists fs2. split; [exact Hfs2 |]. now left. }
  apply fs_update_ok in Hcp. destruct Hcp as (fs3 & Hfs3 & ->).
  cbn [w_fs w_collection w_entropy w_reads w_utcnow] in Hfs3, Hrun.
  assert (Hlate : w' = mkWorld fs3 (w_collection w) (w_entropy w) (S (w_reads w)) (w_utcnow w)
                  /\ ~ FS.io_error e).
  { apply bind_err_inv in Hrun. destruct Hrun as [Herr | (size & w1 & Hsz & Hrun)].
    { exfalso. unfold fs_get in Herr. cbn [w_fs] in Herr. injection Herr as Herr _.
      apply FSFacts.copyfile_result in Hfs3.
      destruct Hfs3 as (c & _ & _ & Hne & Hnd & _ & _ & ->).
      assert (Hk : FS.key uploaded <> []).
      { rewrite Hup. rewrite FSFacts.key_join_name; [apply FSFacts.snoc_not_nil |].
        rewrite En in Hm |- *. unfold prop_name_of in Hm |- *.
        eapply accepted_is_name, Hm. }
      rewrite (FSFacts.getsize_file _ _ c Hne Hnd (FSFacts.lookup_insert_same _ _ _ Hk))
        in Herr. discriminate. }
    apply fs_get_ok in Hsz. destruct Hsz as [_ ->].
    apply bind_err_inv in Hrun. destruct Hrun as [Herr | (obj & w1 & Hobj & Hrun)].
    { pose proof (init_world _ _ _ _ _ _ _ _ Herr) as ->. split; [reflexivity |].
      destruct (raises_init _ _ _ _ _ _ _ _ Herr) as [-> | ->]; now intros []. }
    pose proof (init_world _ _ _ _ _ _ _ _ Hobj) as ->.
    apply bind_err_inv in Hrun. destruct Hrun as [Herr | (u4 & w1 & _ & Hrun)];
      [| discriminate].
    pose proof (insert_object_err _ _ _ _ Herr) as ->. split; [reflexivity |].
    rewrite (raises_insert_object _ _ _ _ Herr). now intros []. }
  destruct Hlate as [-> Hnio].
  eexists. split; [reflexivity |]. right. exists fs1. split; [exact Hfs1 |].
  right. exists fs2. split; [exact Hfs2 |]. right. now split.
Qed.

(** X9: a failing create_object stores no document.  When the failure is
    neither the suffix error nor an OSError of the two directory creations
    (so it comes from the copy, the constructor or the insert), the object
    directory and its data subdirectory have been made and are left
    behind: nothing removes them. *)
Theorem X9_failure_leaves_directories :
  forall (self : DefaultFunctionalDataManager) (filename : string) (read_only : bool)
         (w w' : world) (e : exn),
    create_object self filename read_only w = (Err e, w') ->
    w_collection w' = w_collection w
    /\ (is_value_error e <-> unsupported (prop_name_of filename))
    /\ (is_value_error e -> w' = w)
    /\ ((forall c, e <> OSError c) -> ~ is_value_error e ->
        FS.is_dir (w_fs w') (PosixPath.join (base_directory self) (next_identifier w)) = true
        /\ FS.is_dir (w_fs w')
             (PosixPath.join (PosixPath.join (base_directory self) (next_identifier w))
                             DATA_DIRECTORY) = true).
Proof.
  intros self filename ro w w' e Hrun.
  destruct (create_object_failure _ _ _ _ _ _ Hrun)
    as (n & ident & object_dir & data_dir & uploaded
        & (-> & -> & Hod & Hdd & Hup) & [(Hn & -> & ->) | (Hn & fs & -> & Hcase)]).
  { split; [reflexivity |]. split; [now split |]. split; [reflexivity |].
    intros _ Hnv. now destruct Hnv. }
  cbn [w_collection w_fs]. split; [reflexivity |].
  assert (Hnv : ~ is_value_error e).
  { destruct (create_object_raises _ _ _ _ _ _ Hrun) as [[_ Hu] | Hnv];
      [now destruct (Hn Hu) | exact Hnv]. }
  split; [split; [intros Hv; now destruct (Hnv Hv) | intros Hu; now destruct (Hn Hu)] |].
  split; [intros Hv; now destruct (Hnv Hv) |].
  intros Hnos _.
  destruct (supported_mime _ w Hn) as [mime Hm].
  pose proof (accepted_is_name _ _ _ _ Hm) as Hname. fold (prop_name_of filename) in Hname.
  pose proof (next_identifier_is_name w) as Hid. clear Hm Hrun.
  remember (next_identifier w) as ident eqn:Ei. clear Ei.
  remember (prop_name_of filename) as n eqn:En. clear En.
  destruct (object_keys (base_directory self) _ _ Hid Hname) as (_ & Hkd & Hku).
  cbv zeta in Hkd, Hku. rewrite <- Hod in Hkd, Hku |- *. rewrite <- Hdd in Hkd, Hku |- *.
  rewrite <- Hup in Hku.
  assert (Hne : String.eqb data_dir "" = false)
    by (rewrite Hdd; apply FSFacts.join_name_nonempty, data_directory_is_name).
  assert (Hne' : String.eqb object_dir "" = false)
    by (rewrite Hod; now apply FSFacts.join_name_nonempty).
  destruct Hcase as [(_ & Hmk & _) | (fs1 & _ & [(Hmk & _) | (fs2 & Hmk & Hcp)])].
  { apply FSFacts.makedirs_os_error in Hmk. destruct Hmk as [c ->]. now destruct (Hnos c). }
  { apply FSFacts.mkdir_os_error in Hmk. destruct Hmk as [c ->]. now destruct (Hnos c). }
  apply (FSFacts.mkdir_ok _ _ _ Hne) in Hmk. destruct Hmk as (_ & Hparent & ->).
  rewrite Hkd, List.removelast_last in Hparent.
  destruct Hcp as [(_ & ->) | (Hcp & _)].
  - split.
    + apply FSFacts.stat_dir; [exact Hne' |].
      rewrite FSFacts.lookup_insert_other by (rewrite Hkd; apply FSFacts.snoc_neq).
      exact Hparent.
    + apply FSFacts.stat_dir; [exact Hne |].
      apply FSFacts.lookup_insert_same. rewrite Hkd. apply FSFacts.snoc_not_nil.
  - apply FSFacts.copyfile_ok in Hcp. destruct Hcp as (c & _ & ->). split.
    + apply FSFacts.stat_dir; [exact Hne' |].
      rewrite FSFacts.lookup_insert_other by (rewrite Hku; apply FSFacts.snoc2_neq).
      rewrite FSFacts.lookup_insert_other by (rewrite Hkd; apply FSFacts.snoc_neq).
      exact Hparent.
    + apply FSFacts.stat_dir; [exact Hne |].
      rewrite FSFacts.lookup_insert_other
        by (rewrite Hku, Hkd; apply FSFacts.snoc_neq).
      apply FSFacts.lookup_insert_same. rewrite Hkd. apply FSFacts.snoc_not_nil.
Qed.

End Properties.

(** ** The theorems at concrete inputs *)

Lemma sample_keys_distinct : @keys_distinct sample_keys.
Proof. unfold keys_distinct. apply (bool_decide_unpack _). vm_compute. reflexivity. Qed.

Lemma C1_witness :
  is_ok (fst (@create_object sample_keys sample_manager "/in/scan.nii" true sample_world)) = true
  /\ @assigns_mime sample_keys sample_manager "/in/scan.nii" true sample_world
       "application/NIfTI-1".
Proof.
  split; [vm_compute; reflexivity |].
  destruct (@C1_mime_type_by_suffix sample_keys sample_keys_distinct sample_manager
              "/in/scan.nii" true sample_world) as (_ & Hnii & _).
  apply Hnii. exists "scan". reflexivity.
Defined.

Lemma C2_witness :
  @create_object sample_keys sample_manager "/in/notes.txt" true sample_world
  = (Err (ValueError "unsupported file type: notes.txt"), sample_world).
Proof.
  apply (@C2_unsupported_changes_nothing sample_keys sample_manager "/in/notes.txt" true
           sample_world).
  unfold unsupported. rewrite !PyStrFacts.not_suffix_endswith.
  vm_compute. repeat split.
Defined.

Lemma C3_witness :
  exists h w', @create_object sample_keys sample_manager "/in/scan.nii" true sample_world
               = (Ok h, w')
               /\ @from_dict sample_keys sample_manager (to_dict h) w' = (Ok h, w').
Proof.
  destruct (@create_object sample_keys sample_manager "/in/scan.nii" true sample_world)
    as [[h|e] w'] eqn:Hrun; [| vm_compute in Hrun; discriminate Hrun].
  exists h, w'. split; [reflexivity |].
  destruct (@C3_document_round_trip sample_keys sample_manager "/in/scan.nii" true
              sample_world w' w' h eq_refl Hrun) as (_ & h' & Hback & _ & _ & _ & _ & _ & ->).
  exact Hback.
Defined.

Lemma C7_witness :
  (exists h w', @create_object sample_keys sample_manager "/in/scan.nii" true sample_world
                = (Ok h, w')
                /\ properties h !! "readonly" = Some (VBool true))
  /\ (exists h w', @create_object sample_keys sample_manager "/in/scan.nii" false sample_world
                   = (Ok h, w')
                   /\ properties h !! "readonly" = None).
Proof.
  destruct (@C7_read_only_flag sample_keys sample_keys_distinct sample_manager
              "/in/scan.nii" sample_world) as [Hset Hclear].
  split.
  - destruct (@create_object sample_keys sample_manager "/in/scan.nii" true sample_world)
      as [[h|e] w'] eqn:Hrun; [| vm_compute in Hrun; discriminate Hrun].
    exists h, w'. split; [reflexivity | exact (Hset h w' eq_refl)].
  - destruct (@create_object sample_keys sample_manager "/in/scan.nii" false sample_world)
      as [[h|e] w'] eqn:Hrun; [| vm_compute in Hrun; discriminate Hrun].
    exists h, w'. split; [reflexivity | exact (Hclear h w' eq_refl)].
Defined.

Lemma C8_witness :
  @FunctionalDataHandle_init sample_keys "abc" ∅ "/store/abc" None true sample_world
  = (Err (KeyError "filename"), sample_world).
Proof.
  apply (@C8_constructor_needs_filename sample_keys "abc" ∅ "/store/abc" None true
           sample_world).
  reflexivity.
Defined.

Lemma C9_witness :
  exists f, @FMRIDataHandle_init sample_keys sample_handle "experiment-1" collided_world
            = (Ok f, collided_world)
            /\ identifier f = "abc" /\ data_file f = "/store/abc/data/x.nii"
            /\ experiment_id f = "experiment-1".
Proof.
  destruct (@C9_fmri_handle_copies sample_keys "abc" sample_properties "/store/abc" None true
              sample_world sample_world sample_handle "experiment-1" collided_world
              eq_refl)
    as (f & Hrun & Hid & _ & _ & _ & _ & _ & Hfile & Hexp).
  exists f. repeat split; assumption.
Defined.




(** The scenarios of the specification. *)
Example scenario_nii :
  exists h w', @create_object sample_keys sample_manager "/in/scan.nii" false sample_world
               = (Ok h, w')
               /\ properties h !! "mimetype" = Some (VStr "application/NIfTI-1")
               /\ properties h !! "filename" = Some (VStr "scan.nii")
               /\ data_file h = "/store/00000000000040008000000000000000/data/scan.nii".
Proof.
  destruct (@create_object sample_keys sample_manager "/in/scan.nii" false sample_world)
    as [[h|e] w'] eqn:Hrun; vm_compute in Hrun; [| discriminate Hrun].
  exists h, w'. injection Hrun as <- <-. repeat split.
Qed.

Example scenario_from_dict :
  fst (@from_dict sample_keys sample_manager
         (mkDocument (Some (VStr "abc")) (Some true)
                     (Some (VStr "2020-01-01T00:00:00.000000")) (Some sample_properties))
         sample_world)
  = Ok (mkFunctionalDataHandle
          (mkDataObjectHandle "abc" (mkDatetime 2020 1 1 0 0 0 0) sample_properties
                              "/store/abc" true)
          "/store/abc/data" "/store/abc/data/x.nii").
Proof. vm_compute. reflexivity. Qed.

(** ** The further properties at concrete inputs *)



Lemma X1_witness :
  exists h1 w1 h2 w2,
    @create_object sample_keys sample_manager "/in/scan.nii" false busy_world = (Ok h1, w1)
    /\ @create_object sample_keys sample_manager "/in/scan.nii" true w1 = (Ok h2, w2)
    /\ identifier h1 <> identifier h2 /\ directory h1 <> directory h2.
Proof.
  destruct (@create_object sample_keys sample_manager "/in/scan.nii" false busy_world)
    as [[h1|e1] w1] eqn:H1; [| vm_compute in H1; discriminate H1].
  assert (Hw : w1 = snd (@create_object sample_keys sample_manager "/in/scan.nii" false
                           busy_world)) by (rewrite H1; reflexivity).
  destruct (@create_object sample_keys sample_manager "/in/scan.nii" true w1)
    as [[h2|e2] w2] eqn:H2; [| rewrite Hw in H2; vm_compute in H2; discriminate H2].
  exists h1, w1, h2, w2. split; [reflexivity |]. split; [exact H2 |].
  destruct (@X1_successive_handles_differ sample_keys sample_manager "/in/scan.nii"
              "/in/scan.nii" false true busy_world w1 w2 h1 h2 H1 H2)
    as (Hid & Hdir & _).
  split; assumption.
Defined.

Lemma X2_witness :
  exists h w',
    @create_object sample_keys sample_manager "/in/scan.nii" false sample_world = (Ok h, w')
    /\ String.length (identifier h) = 32%nat
    /\ FS.key (directory h) = (FS.key (base_directory sample_manager) ++ [identifier h])%list.
Proof.
  destruct (@create_object sample_keys sample_manager "/in/scan.nii" false sample_world)
    as [[h|e] w'] eqn:Hrun; [| vm_compute in Hrun; discriminate Hrun].
  exists h, w'. split; [reflexivity |].
  destruct (@X2_identifier_shape sample_keys sample_manager "/in/scan.nii" false
              sample_world w' h Hrun) as (_ & Hlen & _ & _ & _ & Hkey & _).
  split; assumption.
Defined.

Lemma X3_witness :
  exists h2,
    @from_dict sample_keys (mkManager "/mnt/archive") sample_document collided_world
    = (Ok h2, collided_world)
    /\ identifier h2 = "abc" /\ directory h2 = "/mnt/archive/abc".
Proof.
  destruct (@X3_from_dict_relocation sample_keys sample_manager (mkManager "/mnt/archive")
              sample_document sample_world sample_world collided_world sample_handle
              eq_refl)
    as (h2 & name & Hrun & Hid & _ & _ & _ & Hdir & _).
  exists h2. split; [exact Hrun |]. split; [exact Hid | exact Hdir].
Defined.

Lemma X5_witness :
  exists h w',
    @create_object sample_keys sample_manager "/in/scan.nii" false sample_world = (Ok h, w')
    /\ data_file h = directory h +:+ "/data/" +:+ prop_name_of "/in/scan.nii"
    /\ upload_file h = data_file h.
Proof.
  destruct (@create_object sample_keys sample_manager "/in/scan.nii" false sample_world)
    as [[h|e] w'] eqn:Hrun; [| vm_compute in Hrun; discriminate Hrun].
  exists h, w'. split; [reflexivity |].
  destruct (@X5_created_paths_written_out sample_keys sample_keys_distinct sample_manager
              "/in/scan.nii" false sample_world w' h Hrun) as (_ & Hfile & Hup & _).
  split; assumption.
Defined.

Lemma X6_witness :
  exists h w' content,
    @create_object sample_keys sample_manager "/in/scan.nii" false sample_world = (Ok h, w')
    /\ FS.stat (w_fs sample_world) "/in/scan.nii" = Ok (File content)
    /\ FS.stat (w_fs w') (upload_file h) = Ok (File content)
    /\ properties h !! "filesize" = Some (VInt (Z.of_nat (String.length content))).
Proof.
  destruct (@create_object sample_keys sample_manager "/in/scan.nii" false sample_world)
    as [[h|e] w'] eqn:Hrun; [| vm_compute in Hrun; discriminate Hrun].
  destruct (@X6_file_is_copied sample_keys sample_keys_distinct sample_manager
              "/in/scan.nii" false sample_world w' h Hrun)
    as (content & Hsrc & Hdst & _ & Hsize).
  exists h, w', content. split; [reflexivity |]. split; [exact Hsrc |].
  split; [exact Hdst | exact Hsize].
Defined.



Lemma X9_witness :
  exists e w',
    @create_object sample_keys sample_manager "/in/missing.nii" false sample_world
    = (Err e, w')
    /\ e = IOError ENOENT
    /\ w_collection w' = w_collection sample_world
    /\ FS.is_dir (w_fs w')
         (PosixPath.join (PosixPath.join (base_directory sample_manager)
                                         (next_identifier sample_world))
                         DATA_DIRECTORY) = true.
Proof.
  destruct (@create_object sample_keys sample_manager "/in/missing.nii" false sample_world)
    as [[h|e] w'] eqn:Hrun; [vm_compute in Hrun; discriminate Hrun |].
  assert (He : fst (@create_object sample_keys sample_manager "/in/missing.nii" false
                      sample_world) = Err e) by (rewrite Hrun; reflexivity).
  vm_compute in He. injection He as <-.
  exists (IOError ENOENT), w'. split; [reflexivity |]. split; [reflexivity |].
  destruct (@X9_failure_leaves_directories sample_keys sample_manager "/in/missing.nii"
              false sample_world w' (IOError ENOENT) Hrun) as (Hcoll & _ & _ & Hdirs).
  split; [exact Hcoll |]. apply Hdirs; [discriminate | intros Hv; exact Hv].
Defined.
